(** * The live coding session subsystem of the interview backend

    A shallow embedding of [backend/app/api/judge.py] (the client of the
    remote code executor and the test runner) and of
    [backend/app/api/ws_coding.py] (the [CodingSessionManager] that serves
    one WebSocket per coding session), followed by the properties of both.

    Conventions of the embedding:
    - a Python [str] is the list of its code points, [len] is [length];
    - a [dict] used as a registry is a [gmap], a JSON object with a fixed
      set of keys is a record whose fields are [option]s ([None]: the key
      is absent), so that [d.get(k, default)] is [default d (k d)];
    - [datetime.utcnow()] is an argument [now] of the function that reads
      the clock, counted in microseconds, the resolution of [datetime];
    - code that raises, or that talks to the remote judge, lives in a
      state-and-exception monad [M]. *)

From Stdlib Require Import ZArith NArith List String Ascii QArith Lia Bool DecimalString Sorted.
From stdpp Require Import gmap list strings.

Abbreviation str := (list N).
Abbreviation bytes := (list N).

(** [datetime] values, in microseconds. *)
Definition datetime : Type := Z.
Bind Scope Z_scope with datetime.

(** ** The fragment of Python's built-ins the two modules use *)
Module Py.

Definition of_string (s : string) : str := N_of_ascii <$> list_ascii_of_string s.

Definition len {A} (l : list A) : Z := Z.of_nat (length l).

(** [str.isspace] on one character: the code points for which CPython's
    [_PyUnicode_IsWhitespace] answers true. *)
Definition isspace (c : N) : bool :=
  ((9 <=? c) && (c <=? 13) || (28 <=? c) && (c <=? 32)
   || (c =? 133) || (c =? 160) || (c =? 5760)
   || (8192 <=? c) && (c <=? 8202)
   || (c =? 8232) || (c =? 8233) || (c =? 8239) || (c =? 8287)
   || (c =? 12288))%N.

Fixpoint lstrip (s : str) : str :=
  match s with
  | c :: s' => if isspace c then lstrip s' else s
  | [] => []
  end.

Definition rstrip (s : str) : str := rev (lstrip (rev s)).

Definition strip (s : str) : str := rstrip (lstrip s).

(** [str.lower] restricted to the letters A-Z.  No other character
    lowers to a character that occurs in a key of the language maps (the
    Kelvin sign lowers to k, which none of the keys contains), so the
    lookups below agree with Python's on every input. *)
Definition lower_char (c : N) : N :=
  if ((65 <=? c) && (c <=? 90))%N then (c + 32)%N else c.

Definition lower (s : str) : str := lower_char <$> s.

(** [str(n)] for a non-negative integer. *)
Definition str_of_nat (n : nat) : str :=
  of_string (NilEmpty.string_of_uint (Nat.to_uint n)).

(** [a or b] where [a] is an optional string: [None] and the empty
    string are falsy. *)
Definition or_ (a : option str) (b : str) : str :=
  match a with
  | Some (c :: s) => c :: s
  | _ => b
  end.

Definition truthy (a : option str) : bool :=
  match a with
  | Some (_ :: _) => true
  | _ => false
  end.

(** [d.get(key)] on a dict literal written as an association list. *)
Fixpoint dict_get {V} (d : list (str * V)) (key : str) : option V :=
  match d with
  | [] => None
  | (k, v) :: d' => if bool_decide (k = key) then Some v else dict_get d' key
  end.

(** [s[:n]] *)
Definition slice_to {A} (n : nat) (s : list A) : list A := take n s.

End Py.

(** ** Exceptions and the monad of effectful code *)

Inductive Exn : Type :=
| HTTPException (status_code : Z) (detail : str)
| BinasciiError (msg : str)
| ValueError (msg : str)
| KeyError (key : str).

Inductive Res (A : Type) : Type :=
| Ret (a : A)
| Raise (e : Exn).
Arguments Ret {A} a.
Arguments Raise {A} e.

Definition M (S A : Type) : Type := S → Res A * S.

#[global] Instance M_ret {S} : MRet (M S) := λ A a s, (Ret a, s).

#[global] Instance M_bind {S} : MBind (M S) := λ A B f c s,
  match c s with
  | (Ret a, s') => f a s'
  | (Raise e, s') => (Raise e, s')
  end.

Definition raise {S A} (e : Exn) : M S A := λ s, (Raise e, s).

(** [try: c except Exception as e: ...]: the outcome of [c] as a value. *)
Definition try {S A} (c : M S A) : M S (Res A) := λ s,
  let '(r, s') := c s in (Ret r, s').

Definition get {S} : M S S := λ s, (Ret s, s).

Definition modify {S} (f : S → S) : M S unit := λ s, (Ret tt, f s).

(** A [Res] that touches no state. *)
Definition lift_res {S A} (r : Res A) : M S A := λ s, (r, s).

Definition res_bind {A B} (r : Res A) (f : A → Res B) : Res B :=
  match r with
  | Ret a => f a
  | Raise e => Raise e
  end.

(** ** [base64.b64decode] and [bytes.decode('utf-8', errors='ignore')] *)
Module Base64.

(** [table_a2b_base64]: the value of a base64 digit, [None] for a
    character outside the alphabet. *)
Definition table_a2b_base64 (c : N) : option N :=
  (if (65 <=? c) && (c <=? 90) then Some (c - 65)
   else if (97 <=? c) && (c <=? 122) then Some (c - 97 + 26)
   else if (48 <=? c) && (c <=? 57) then Some (c - 48 + 52)
   else if c =? 43 then Some 62
   else if c =? 47 then Some 63
   else None)%N.

Definition BASE64_PAD : N := 61.

(** The loop of [binascii.a2b_base64] with [strict_mode] off, which is
    what [base64.b64decode(s)] runs: characters outside the alphabet are
    skipped, a pad sequence that completes a quad ends the input, and an
    incomplete quad at the end of the input is an error. *)
Fixpoint a2b_base64_loop (ascii_data : bytes) (quad_pos : nat) (leftchar : N)
    (pads : nat) (bin_data : bytes) : Res bytes :=
  match ascii_data with
  | [] =>
      match quad_pos with
      | 0 => Ret bin_data
      | 1 => Raise (BinasciiError
               (Py.of_string "Invalid base64-encoded string: number of data characters ("
                ++ Py.str_of_nat (length bin_data / 3 * 4 + 1)
                ++ Py.of_string ") cannot be 1 more than a multiple of 4"))
      | _ => Raise (BinasciiError (Py.of_string "Incorrect padding"))
      end
  | this_ch :: rest =>
      if (this_ch =? BASE64_PAD)%N then
        if (2 <=? quad_pos)%nat then
          if (4 <=? quad_pos + S pads)%nat then Ret bin_data
          else a2b_base64_loop rest quad_pos leftchar (S pads) bin_data
        else a2b_base64_loop rest quad_pos leftchar pads bin_data
      else
        match table_a2b_base64 this_ch with
        | None => a2b_base64_loop rest quad_pos leftchar pads bin_data
        | Some v =>
            match quad_pos with
            | 0 => a2b_base64_loop rest 1 v 0 bin_data
            | 1 => a2b_base64_loop rest 2 (N.land v 15) 0
                     (bin_data ++ [N.lor (N.shiftl leftchar 2) (N.shiftr v 4)])
            | 2 => a2b_base64_loop rest 3 (N.land v 3) 0
                     (bin_data ++ [N.lor (N.shiftl leftchar 4) (N.shiftr v 2)])
            | _ => a2b_base64_loop rest 0 0%N 0
                     (bin_data ++ [N.lor (N.shiftl leftchar 6) v])
            end
        end
  end.

Definition a2b_base64 (ascii_data : bytes) : Res bytes :=
  a2b_base64_loop ascii_data 0 0%N 0 [].

(** [base64.b64decode(s)] for a [str] argument: the string is first
    encoded as ASCII, which fails on any other character. *)
Definition b64decode (s : str) : Res bytes :=
  if forallb (λ c, c <? 128)%N s then a2b_base64 s
  else Raise (ValueError (Py.of_string "string argument should contain only ASCII characters")).

End Base64.

Module Utf8.

(** What a byte means at the start of a character. *)
Inductive start_byte : Type :=
| Single (c : N)
| Lead (needed : nat) (cp lo hi : N)
| InvalidStart.

Definition classify (b : N) : start_byte :=
  (if b <? 128 then Single b
   else if (194 <=? b) && (b <=? 223) then Lead 1 (N.land b 31) 128 191
   else if (224 <=? b) && (b <=? 239) then
     Lead 2 (N.land b 15) (if b =? 224 then 160 else 128) (if b =? 237 then 159 else 191)
   else if (240 <=? b) && (b <=? 244) then
     Lead 3 (N.land b 7) (if b =? 240 then 144 else 128) (if b =? 244 then 143 else 191)
   else InvalidStart)%N.

(** [bytes.decode('utf-8', errors='ignore')].  [needed] continuation
    bytes are awaited, the next of them in [lo..hi]; [cp] holds the bits
    read so far.  A byte that cannot continue the pending character drops
    the pending bytes and is examined again as a start byte; an invalid
    start byte and a character cut short by the end of the input are
    dropped.  Nothing raises. *)
Fixpoint decode_ignore_from (needed : nat) (cp lo hi : N) (data : bytes) : str :=
  match data with
  | [] => []
  | b :: rest =>
      let restart :=
        match classify b with
        | Single c => c :: decode_ignore_from 0 0%N 128%N 191%N rest
        | Lead n cp' lo' hi' => decode_ignore_from n cp' lo' hi' rest
        | InvalidStart => decode_ignore_from 0 0%N 128%N 191%N rest
        end in
      match needed with
      | 0 => restart
      | S k =>
          if ((lo <=? b) && (b <=? hi))%N then
            let cp' := N.lor (N.shiftl cp 6) (N.land b 63) in
            match k with
            | 0 => cp' :: decode_ignore_from 0 0%N 128%N 191%N rest
            | S _ => decode_ignore_from k cp' 128%N 191%N rest
            end
          else restart
      end
  end.

Definition decode_ignore (data : bytes) : str :=
  decode_ignore_from 0 0%N 128%N 191%N data.

End Utf8.

(** ** [judge.py]: the executor client and the test runner *)
Module Judge.

(** [LANGUAGE_MAP] *)
Definition LANGUAGE_MAP : list (str * Z) :=
  [ (Py.of_string "python", 71); (Py.of_string "javascript", 63);
    (Py.of_string "java", 62); (Py.of_string "cpp", 54);
    (Py.of_string "c", 50); (Py.of_string "go", 60);
    (Py.of_string "rust", 73); (Py.of_string "typescript", 74) ]%Z.

(** The pydantic models of [..models], as far as this code reads them.
    [status] keeps the entry [id] of the status object ([None]: no such
    entry, or no status at all), which is all the callers look at. *)
Record CodeSubmissionRequest : Type := {
  source_code : str;
  language_id : Z;
  stdin : str
}.

Record CodeResultResponse : Type := {
  status : option Z;
  stdout : option str;
  stderr : option str;
  compile_output : option str;
  time : option str;
  memory : option Z
}.

(** [result.status.get("id", 0)] *)
Definition status_id (result : CodeResultResponse) : Z := default 0%Z (status result).

(** The JSON object in the body of a reply of the remote service. *)
Record JudgeJson : Type := {
  j_token : option str;
  j_status : option Z;
  j_stdout : option str;
  j_stderr : option str;
  j_compile_output : option str;
  j_time : option str;
  j_memory : option Z
}.

(** What [requests.post] and [requests.get] come back with. *)
Inductive HttpReply : Type :=
| Timeout
| RequestException (e : str)
| Response (status_code : Z) (text : str) (json : JudgeJson).

(** The rows of [..db] the runner reads and writes.  A test case is a
    JSON object, read with [get] and a default. *)
Record TestCase : Type := {
  tc_input : option str;
  tc_expected_output : option str
}.

Record CodingTask : Type := {
  task_session_id : str;
  test_cases : list TestCase
}.

(** One entry of [test_results].  The three shapes the runner builds are
    told apart by which optional entries they carry. *)
Record TestResult : Type := {
  test_case : nat;
  passed : bool;
  error : option str;
  expected : str;
  actual : option str;
  execution_time : option str;
  memory_used : option Z
}.

Record RunTestsResult : Type := {
  score : Q;
  passed_tests : nat;
  total_tests : nat;
  test_results : list TestResult
}.

Record CodeSubmission : Type := {
  coding_task_id : str;
  submission_session_id : str;
  code : str;
  language : str;
  result : RunTestsResult
}.

(** The world outside the process: the remote judge answers the n-th
    HTTP request with [judge0 n]; the other fields record what the code
    did to it. *)
Record World : Type := {
  judge0 : nat → HttpReply;
  requests : nat;
  submitted : list CodeSubmissionRequest;
  fetched : list str;
  slept : nat;
  coding_tasks : gmap str CodingTask;
  code_submissions : list CodeSubmission
}.

Definition http_post (request : CodeSubmissionRequest) : M World HttpReply := λ w,
  (Ret (judge0 w (requests w)),
   {| judge0 := judge0 w; requests := S (requests w);
      submitted := submitted w ++ [request]; fetched := fetched w;
      slept := slept w; coding_tasks := coding_tasks w;
      code_submissions := code_submissions w |}).

Definition http_get (token : str) : M World HttpReply := λ w,
  (Ret (judge0 w (requests w)),
   {| judge0 := judge0 w; requests := S (requests w);
      submitted := submitted w; fetched := fetched w ++ [token];
      slept := slept w; coding_tasks := coding_tasks w;
      code_submissions := code_submissions w |}).

(** [time.sleep(1)], [asyncio.sleep(1)] *)
Definition sleep (seconds : nat) : M World unit := λ w,
  (Ret tt,
   {| judge0 := judge0 w; requests := requests w;
      submitted := submitted w; fetched := fetched w;
      slept := slept w + seconds; coding_tasks := coding_tasks w;
      code_submissions := code_submissions w |}).

(** [db.add(code_submission); db.commit()] *)
Definition db_add (row : CodeSubmission) : M World unit := λ w,
  (Ret tt,
   {| judge0 := judge0 w; requests := requests w;
      submitted := submitted w; fetched := fetched w;
      slept := slept w; coding_tasks := coding_tasks w;
      code_submissions := code_submissions w ++ [row] |}).

(** [submit_code].  The request body is the request with its texts in
    base64; the record keeps the request itself. *)
Definition submit_code (request : CodeSubmissionRequest) : M World str :=
  response ← http_post request;
  match response with
  | Timeout =>
      raise (HTTPException 500 (Py.of_string "Judge0 submission timed out"))
  | RequestException e =>
      raise (HTTPException 500 (Py.of_string "Judge0 error: " ++ e))
  | Response status_code text json =>
      if negb ((status_code =? 200) || (status_code =? 201))%Z then
        raise (HTTPException 500 (Py.of_string "Judge0 submission failed: " ++ text))
      else if negb (Py.truthy (j_token json)) then
        raise (HTTPException 500 (Py.of_string "No token received from Judge0"))
      else mret (default [] (j_token json))
  end.

(** [if result.get(k): result[k] = base64.b64decode(result[k]).decode('utf-8', errors='ignore')] *)
Definition decode_field (field : option str) : Res (option str) :=
  if Py.truthy field then
    res_bind (Base64.b64decode (default [] field))
             (λ raw, Ret (Some (Utf8.decode_ignore raw)))
  else Ret field.

(** The part of [get_submission_result] that follows a 200 reply. *)
Definition decode_result (json : JudgeJson) : Res CodeResultResponse :=
  res_bind (decode_field (j_stdout json)) (λ out,
  res_bind (decode_field (j_stderr json)) (λ err,
  res_bind (decode_field (j_compile_output json)) (λ comp,
  Ret {| status := j_status json; stdout := out; stderr := err;
         compile_output := comp; time := j_time json;
         memory := j_memory json |}))).

(** [get_submission_result] *)
Definition get_submission_result (token : str) : M World CodeResultResponse :=
  response ← http_get token;
  match response with
  | Timeout =>
      raise (HTTPException 500 (Py.of_string "Judge0 result fetch timed out"))
  | RequestException e =>
      raise (HTTPException 500 (Py.of_string "Judge0 error: " ++ e))
  | Response status_code text json =>
      if negb (status_code =? 200)%Z then
        raise (HTTPException 500 (Py.of_string "Judge0 result fetch failed: " ++ text))
      else lift_res (decode_result json)
  end.

(** [status_id not in [1, 2]] *)
Definition terminal (result : CodeResultResponse) : bool :=
  negb ((status_id result =? 1) || (status_id result =? 2))%Z.

(** The polling loop of [run_code_tests]: [for attempt in
    range(max_attempts)], with the [try] whose handler is [pass].
    [result] is the local variable of that name. *)
Fixpoint poll (max_attempts : nat) (token : str)
    (result : option CodeResultResponse) : M World (option CodeResultResponse) :=
  match max_attempts with
  | 0 => mret result
  | S attempts =>
      attempt ← try (get_submission_result token);
      match attempt with
      | Ret r =>
          if terminal r then mret (Some r)
          else sleep 1;; poll attempts token (Some r)
      | Raise _ => sleep 1;; poll attempts token result
      end
  end.

Arguments poll : simpl never.

(** The body of [for i, test_case in enumerate(task.test_cases)], on the
    locals [test_results] and [passed_tests]. *)
Definition run_test_case (source_code : str) (language_id : Z) (i : nat)
    (test_case : TestCase) (test_results : list TestResult) (passed_tests : nat)
    : M World (list TestResult * nat) :=
  let test_input := default [] (tc_input test_case) in
  let expected_output := Py.strip (default [] (tc_expected_output test_case)) in
  token ← submit_code {| source_code := source_code;
                         language_id := language_id;
                         stdin := test_input |};
  result ← poll 30 token None;
  match result with
  | None =>
      mret (test_results ++
              [{| test_case := i + 1; passed := false;
                  error := Some (Py.of_string "Execution timeout");
                  expected := expected_output; actual := None;
                  execution_time := None; memory_used := None |}],
            passed_tests)
  | Some result =>
      let status_id := status_id result in
      let actual_output := Py.strip (Py.or_ (stdout result) []) in
      if (status_id =? 3)%Z then
        let passed := bool_decide (actual_output = expected_output) in
        mret (test_results ++
                [{| test_case := i + 1; passed := passed; error := None;
                    expected := expected_output; actual := Some actual_output;
                    execution_time := time result;
                    memory_used := memory result |}],
              if passed then passed_tests + 1 else passed_tests)
      else
        let error_msg :=
          Py.or_ (stderr result)
                 (Py.or_ (compile_output result) (Py.of_string "Unknown error")) in
        mret (test_results ++
                [{| test_case := i + 1; passed := false; error := Some error_msg;
                    expected := expected_output; actual := Some actual_output;
                    execution_time := None; memory_used := None |}],
              passed_tests)
  end.

Fixpoint run_test_cases (source_code : str) (language_id : Z) (i : nat)
    (cases : list TestCase) (test_results : list TestResult) (passed_tests : nat)
    : M World (list TestResult * nat) :=
  match cases with
  | [] => mret (test_results, passed_tests)
  | test_case :: rest =>
      '(test_results, passed_tests) ←
        run_test_case source_code language_id i test_case test_results passed_tests;
      run_test_cases source_code language_id (S i) rest test_results passed_tests
  end.

(** [(passed_tests / total_tests) * 100 if total_tests > 0 else 0], as
    an exact fraction. *)
Definition compute_score (passed_tests total_tests : nat) : Q :=
  if (0 <? total_tests)%nat then
    (inject_Z (Z.of_nat passed_tests) / inject_Z (Z.of_nat total_tests) * 100)%Q
  else 0%Q.

(** [run_code_tests]; [submission_id], which the database makes up, is
    not part of the result here. *)
Definition run_code_tests (task_id source_code language : str) : M World RunTestsResult :=
  w ← get;
  match coding_tasks w !! task_id with
  | None => raise (HTTPException 404 (Py.of_string "Coding task not found"))
  | Some task =>
      match Py.dict_get LANGUAGE_MAP (Py.lower language) with
      | None =>
          raise (HTTPException 400
                   (Py.of_string "Unsupported language: " ++ language
                    ++ Py.of_string ". Supported: ['python', 'javascript', 'java', 'cpp', 'c', 'go', 'rust', 'typescript']"))
      | Some language_id =>
          let total_tests := length (test_cases task) in
          '(test_results, passed_tests) ←
            run_test_cases source_code language_id 0 (test_cases task) [] 0;
          let score := compute_score passed_tests total_tests in
          let result := {| score := score; passed_tests := passed_tests;
                           total_tests := total_tests;
                           test_results := test_results |} in
          db_add {| coding_task_id := task_id;
                    submission_session_id := task_session_id task;
                    code := source_code; language := language;
                    result := result |};;
          mret result
      end
  end.

End Judge.

(** ** [ws_coding.py]: the session manager *)
Module WsCoding.

(** A WebSocket is known by its handle; what is sent on it is recorded
    in the [outbox] of the state. *)
Definition WebSocket : Type := nat.

(** The cursor of an edit is passed through unread. *)
Definition Cursor : Type := list (str * Z).

(** An inbound message, a JSON object read with [message.get]. *)
Record Message : Type := {
  m_type : option str;
  m_code : option str;
  m_cursor : option Cursor;
  m_language : option str;
  m_input : option str;
  m_content : option str
}.

(** A text of an outbound message: a string the code spells out, or
    [f"{prefix}{str(e)}"] for a caught exception [e]. *)
Inductive Text : Type :=
| Lit (s : str)
| Fmt (prefix : str) (e : Exn).

(** The outbound messages, one constructor for each dict the code
    builds; [RunResult] and [SubmitResult] are the ones with
    ["success": True], the two [Failed] ones carry ["success": False]. *)
Inductive Event : Type :=
| EditAck (timestamp : datetime)
| RunResult (stdout stderr : option str) (time : option str)
    (memory : option Z) (status : option Z)
| RunFailed (error : Text)
| SubmitResult (score : Q) (passed_tests total_tests : nat)
    (test_results : list Judge.TestResult)
| SubmitFailed (error : Text)
| ProctorAlert (event message severity : str)
| Error (message : Text).

Definition success (e : Event) : option bool :=
  match e with
  | RunResult _ _ _ _ _ | SubmitResult _ _ _ _ => Some true
  | RunFailed _ | SubmitFailed _ => Some false
  | _ => None
  end.

Record PasteEvent : Type := {
  content : str;
  paste_timestamp : datetime;
  length_ : Z
}.

Record Connection : Type := {
  websocket : WebSocket;
  task_id : str;
  last_code : str;
  last_activity : datetime;
  paste_events : list PasteEvent;
  tab_switches : nat
}.

Record Snapshot : Type := {
  code : str;
  timestamp : datetime;
  cursor : Cursor
}.

Record CodingSessionManager : Type := {
  active_connections : gmap str Connection;
  code_snapshots : gmap str (list Snapshot)
}.

Record State : Type := {
  manager : CodingSessionManager;
  outbox : list (WebSocket * Event);
  world : Judge.World
}.

(** [CodingSessionManager.__init__] *)
Definition init : CodingSessionManager :=
  {| active_connections := ∅; code_snapshots := ∅ |}.

Definition set_connection (session_id : str) (connection : Connection) : M State unit :=
  modify (λ st,
    {| manager := {| active_connections :=
                       <[session_id := connection]> (active_connections (manager st));
                     code_snapshots := code_snapshots (manager st) |};
       outbox := outbox st; world := world st |}).

Definition set_snapshots (session_id : str) (snapshots : list Snapshot) : M State unit :=
  modify (λ st,
    {| manager := {| active_connections := active_connections (manager st);
                     code_snapshots :=
                       <[session_id := snapshots]> (code_snapshots (manager st)) |};
       outbox := outbox st; world := world st |}).

(** [await websocket.send_json(message)] *)
Definition send_json (websocket : WebSocket) (message : Event) : M State unit :=
  modify (λ st,
    {| manager := manager st; outbox := outbox st ++ [(websocket, message)];
       world := world st |}).

(** Code of [judge.py] run from a handler. *)
Definition lift_world {A} (c : M Judge.World A) : M State A := λ st,
  let '(r, w) := c (world st) in
  (r, {| manager := manager st; outbox := outbox st; world := w |}).

(** [connect]; accepting the socket leaves no trace in the state. *)
Definition connect (now : datetime) (websocket : WebSocket)
    (session_id task_id : str) : M State unit :=
  modify (λ st,
    let connections :=
      <[session_id := {| websocket := websocket; task_id := task_id;
                         last_code := []; last_activity := now;
                         paste_events := []; tab_switches := 0 |}]>
        (active_connections (manager st)) in
    let snapshots :=
      match code_snapshots (manager st) !! session_id with
      | None => <[session_id := []]> (code_snapshots (manager st))
      | Some _ => code_snapshots (manager st)
      end in
    {| manager := {| active_connections := connections;
                     code_snapshots := snapshots |};
       outbox := outbox st; world := world st |}).

(** [disconnect] *)
Definition disconnect (session_id : str) : M State unit :=
  modify (λ st,
    let connections :=
      match active_connections (manager st) !! session_id with
      | Some _ => delete session_id (active_connections (manager st))
      | None => active_connections (manager st)
      end in
    {| manager := {| active_connections := connections;
                     code_snapshots := code_snapshots (manager st) |};
       outbox := outbox st; world := world st |}).

(** [send_message] *)
Definition send_message (session_id : str) (message : Event) : M State unit :=
  st ← get;
  match active_connections (manager st) !! session_id with
  | Some connection => send_json (websocket connection) message
  | None => mret tt
  end.

(** The condition [should_snapshot] of [_handle_code_edit].  The first
    disjunct of the source, [len(snapshots) == 0], is the case without a
    last element; the other two read [snapshots[-1]].  Thirty seconds
    are 30000000 microseconds. *)
Definition should_snapshot (snapshots : list Snapshot) (code_ : str)
    (timestamp_ : datetime) : bool :=
  match last snapshots with
  | None => true
  | Some prev =>
      (50 <? Py.len code_ - Py.len (code prev))%Z
      || (30000000 <? timestamp_ - timestamp prev)%Z
  end.

(** [_handle_code_edit] *)
Definition _handle_code_edit (now : datetime) (session_id : str)
    (message : Message) (connection : Connection) : M State unit :=
  let code_ := default [] (m_code message) in
  let cursor_position := default [] (m_cursor message) in
  let timestamp_ := now in
  set_connection session_id
    {| websocket := websocket connection; task_id := task_id connection;
       last_code := code_; last_activity := timestamp_;
       paste_events := paste_events connection;
       tab_switches := tab_switches connection |};;
  st ← get;
  match code_snapshots (manager st) !! session_id with
  | None => raise (KeyError session_id)
  | Some snapshots =>
      (if should_snapshot snapshots code_ timestamp_ then
         let snapshots :=
           snapshots ++ [{| code := code_; timestamp := timestamp_;
                            cursor := cursor_position |}] in
         let snapshots :=
           if (20 <? length snapshots)%nat then drop 1 snapshots else snapshots in
         set_snapshots session_id snapshots
       else mret tt);;
      send_message session_id (EditAck timestamp_)
  end.

(** [language_map] of [_handle_run_code] *)
Definition language_map : list (str * Z) :=
  [ (Py.of_string "python", 71); (Py.of_string "javascript", 63);
    (Py.of_string "java", 62); (Py.of_string "cpp", 54);
    (Py.of_string "c", 50) ]%Z.

(** The polling loop of [_handle_run_code]: [for _ in
    range(max_attempts)], without a [try] of its own. *)
Fixpoint poll (max_attempts : nat) (token : str)
    (result : option Judge.CodeResultResponse)
    : M Judge.World (option Judge.CodeResultResponse) :=
  match max_attempts with
  | 0 => mret result
  | S attempts =>
      r ← Judge.get_submission_result token;
      if Judge.terminal r then mret (Some r)
      else Judge.sleep 1;; poll attempts token (Some r)
  end.

Arguments poll : simpl never.

(** [_handle_run_code].  A result object is truthy, so [if result:]
    asks whether [result] is still [None]. *)
Definition _handle_run_code (session_id : str) (message : Message)
    (connection : Connection) : M State unit :=
  let code_ := default [] (m_code message) in
  let language := default (Py.of_string "python") (m_language message) in
  let stdin_input := default [] (m_input message) in
  match Py.dict_get language_map (Py.lower language) with
  | None =>
      send_message session_id
        (RunFailed (Lit (Py.of_string "Unsupported language: " ++ language)))
  | Some language_id =>
      outcome ← try (
        token ← lift_world (Judge.submit_code
                   {| Judge.source_code := code_;
                      Judge.language_id := language_id;
                      Judge.stdin := stdin_input |});
        result ← lift_world (poll 15 token None);
        match result with
        | Some result =>
            send_message session_id
              (RunResult (Judge.stdout result) (Judge.stderr result)
                 (Judge.time result) (Judge.memory result) (Judge.status result))
        | None =>
            send_message session_id
              (RunFailed (Lit (Py.of_string "Execution timeout")))
        end);
      match outcome with
      | Ret _ => mret tt
      | Raise e => send_message session_id (RunFailed (Fmt [] e))
      end
  end.

(** [_handle_submit_code] *)
Definition _handle_submit_code (session_id : str) (message : Message)
    (connection : Connection) : M State unit :=
  let code_ := default [] (m_code message) in
  let language := default (Py.of_string "python") (m_language message) in
  let task_id := task_id connection in
  outcome ← try (
    result ← lift_world (Judge.run_code_tests task_id code_ language);
    send_message session_id
      (SubmitResult (Judge.score result) (Judge.passed_tests result)
         (Judge.total_tests result) (Judge.test_results result)));
  match outcome with
  | Ret _ => mret tt
  | Raise e => send_message session_id (SubmitFailed (Fmt [] e))
  end.

(** [_handle_paste_event] *)
Definition _handle_paste_event (now : datetime) (session_id : str)
    (message : Message) (connection : Connection) : M State unit :=
  let pasted_content := default [] (m_content message) in
  let timestamp_ := now in
  set_connection session_id
    {| websocket := websocket connection; task_id := task_id connection;
       last_code := last_code connection;
       last_activity := last_activity connection;
       paste_events :=
         paste_events connection ++
           [{| content := Py.slice_to 200 pasted_content;
               paste_timestamp := timestamp_;
               length_ := Py.len pasted_content |}];
       tab_switches := tab_switches connection |};;
  if (100 <? Py.len pasted_content)%Z then
    send_message session_id
      (ProctorAlert (Py.of_string "large_paste")
         (Py.of_string "Large code paste detected") (Py.of_string "medium"))
  else mret tt.

(** [_handle_tab_switch] *)
Definition _handle_tab_switch (session_id : str) (message : Message)
    (connection : Connection) : M State unit :=
  let connection :=
    {| websocket := websocket connection; task_id := task_id connection;
       last_code := last_code connection;
       last_activity := last_activity connection;
       paste_events := paste_events connection;
       tab_switches := tab_switches connection + 1 |} in
  set_connection session_id connection;;
  if (5 <? tab_switches connection)%nat then
    send_message session_id
      (ProctorAlert (Py.of_string "excessive_tab_switching")
         (Py.of_string "Multiple tab switches detected ("
          ++ Py.str_of_nat (tab_switches connection) ++ Py.of_string ")")
         (Py.of_string "high"))
  else mret tt.

(** [str(message_type)] in the reply to an unknown type. *)
Definition str_of_type (message_type : option str) : str :=
  default (Py.of_string "None") message_type.

Definition is_type (message_type : option str) (name : string) : bool :=
  bool_decide (message_type = Some (Py.of_string name)).

(** [handle_message] *)
Definition handle_message (now : datetime) (session_id : str)
    (message : Message) : M State unit :=
  st ← get;
  match active_connections (manager st) !! session_id with
  | None => mret tt
  | Some connection =>
      let message_type := m_type message in
      outcome ← try (
        if is_type message_type "code_edit" then
          _handle_code_edit now session_id message connection
        else if is_type message_type "run_code" then
          _handle_run_code session_id message connection
        else if is_type message_type "submit_code" then
          _handle_submit_code session_id message connection
        else if is_type message_type "paste_event" then
          _handle_paste_event now session_id message connection
        else if is_type message_type "tab_switch" then
          _handle_tab_switch session_id message connection
        else
          send_message session_id
            (Error (Lit (Py.of_string "Unknown message type: "
                         ++ str_of_type message_type))));
      match outcome with
      | Ret _ => mret tt
      | Raise e =>
          send_message session_id
            (Error (Fmt (Py.of_string "Error handling message: ") e))
      end
  end.

(** What happens on the sockets served by [handle_coding_websocket]: a
    socket is opened for a session, a text arrives on the socket of a
    session ([None]: the text is not JSON), a socket goes away. *)
Inductive Input : Type :=
| Open (websocket : WebSocket) (session_id task_id : str)
| Receive (session_id : str) (data : option Message)
| Close (session_id : str).

(** One turn of [handle_coding_websocket] for one of the sessions;
    [now] is the reading of the clock during the turn. *)
Definition step (now : datetime) (input : Input) : M State unit :=
  match input with
  | Open websocket session_id task_id => connect now websocket session_id task_id
  | Receive session_id (Some message) => handle_message now session_id message
  | Receive session_id None =>
      send_message session_id (Error (Lit (Py.of_string "Invalid JSON message")))
  | Close session_id => disconnect session_id
  end.

Fixpoint run (trace : list (datetime * Input)) (st : State) : State :=
  match trace with
  | [] => st
  | (now, input) :: trace' => run trace' (step now input st).2
  end.

End WsCoding.

(** ** Vocabulary of the properties *)
Module Props.
Import WsCoding.

(** The connection [connect] registers. *)
Definition new_connection (now : datetime) (websocket : WebSocket)
    (task_id : str) : Connection :=
  {| websocket := websocket; task_id := task_id; last_code := [];
     last_activity := now; paste_events := []; tab_switches := 0 |}.

(** The alert of [_handle_tab_switch] when the counter stands at [n]. *)
Definition tab_switch_alert (n : nat) : Event :=
  ProctorAlert (Py.of_string "excessive_tab_switching")
    (Py.of_string "Multiple tab switches detected (" ++ Py.str_of_nat n
     ++ Py.of_string ")")
    (Py.of_string "high").

Definition large_paste_alert : Event :=
  ProctorAlert (Py.of_string "large_paste")
    (Py.of_string "Large code paste detected") (Py.of_string "medium").

(** Messages of one type arriving one after the other on one session. *)
Definition receive_all (session_id : str) (messages : list (datetime * Message))
    : list (datetime * Input) :=
  (λ p, (p.1, Receive session_id (Some p.2))) <$> messages.

(** The snapshot a [code_edit] message makes at time [now]. *)
Definition snapshot_of (now : datetime) (message : Message) : Snapshot :=
  {| code := default [] (m_code message); timestamp := now;
     cursor := default [] (m_cursor message) |}.

(** The snapshot policy in the words of the specification: no snapshot
    yet, or the code at least 50 characters longer than that of the most
    recent snapshot, or at least 30 seconds since that snapshot. *)
Definition spec_should_snapshot (snapshots : list Snapshot) (code_ : str)
    (now : datetime) : Prop :=
  snapshots = []
  ∨ ∃ prev, last snapshots = Some prev
      ∧ ((Py.len (code prev) + 50 ≤ Py.len code_)%Z
         ∨ (30000000 ≤ now - timestamp prev)%Z).

(** The policy of the code, as a proposition: both comparisons are
    strict. *)
Definition snapshot_due (snapshots : list Snapshot) (code_ : str)
    (now : datetime) : Prop :=
  snapshots = []
  ∨ ∃ prev, last snapshots = Some prev
      ∧ ((50 < Py.len code_ - Py.len (code prev))%Z
         ∨ (30000000 < now - timestamp prev)%Z).

(** The list of a session after an append: the oldest entry goes when
    there are more than 20. *)
Definition appended (snapshots : list Snapshot) (s : Snapshot) : list Snapshot :=
  if (20 <? length (snapshots ++ [s]))%nat then drop 1 (snapshots ++ [s])
  else snapshots ++ [s].




(** A computation that leaves [code_snapshots] alone. *)
Definition keeps_snapshots {A} (c : M State A) : Prop :=
  ∀ st, code_snapshots (manager (c st).2) = code_snapshots (manager st).


End Props.

(** ** Vocabulary of the properties of [judge.py] *)
Module JudgeProps.
Import Judge.



(** The pass rule in the words of the specification: the status is the
    accepted one and the trimmed output is the trimmed expected output.
    [polled] is what the polling of the test case ended with. *)
Definition accepted_and_equal (polled : option CodeResultResponse)
    (test_case : TestCase) : Prop :=
  ∃ r, polled = Some r
    ∧ status r = Some 3%Z
    ∧ Py.strip (default [] (stdout r))
      = Py.strip (default [] (tc_expected_output test_case)).

(** The submission [run_code_tests] makes for a test case. *)
Definition request_for (source_code : str) (language_id : Z)
    (test_case : TestCase) : CodeSubmissionRequest :=
  {| source_code := source_code; language_id := language_id;
     stdin := default [] (tc_input test_case) |}.

Definition timeout_marker : option str := Some (Py.of_string "Execution timeout").

(** The replies to the next [n] requests are results still in progress. *)
Definition in_progress_for (n : nat) (w : World) : Prop :=
  ∀ k, (k < n)%nat →
    ∃ text json r, judge0 w (requests w + k)%nat = Response 200 text json
      ∧ decode_result json = Ret r ∧ terminal r = false.

(** A reply that makes [get_submission_result] give up. *)
Definition failed_reply (reply : HttpReply) : Prop :=
  match reply with
  | Timeout | RequestException _ => True
  | Response status_code _ _ => status_code ≠ 200%Z
  end.

(** The next [n] requests fail. *)
Definition failing_for (n : nat) (w : World) : Prop :=
  ∀ k, (k < n)%nat → failed_reply (judge0 w (requests w + k)%nat).

End JudgeProps.

(** ** Concrete sessions, judges and tasks *)
Module Examples.
Import WsCoding.

Definition no_json : Judge.JudgeJson :=
  {| Judge.j_token := None; Judge.j_status := None; Judge.j_stdout := None;
     Judge.j_stderr := None; Judge.j_compile_output := None;
     Judge.j_time := None; Judge.j_memory := None |}.

(** The reply to a submission: 201 with a token. *)
Definition created (token : string) : Judge.HttpReply :=
  Judge.Response 201 []
    {| Judge.j_token := Some (Py.of_string token); Judge.j_status := None;
       Judge.j_stdout := None; Judge.j_stderr := None;
       Judge.j_compile_output := None; Judge.j_time := None;
       Judge.j_memory := None |}.

(** The reply to a fetch: 200 with a status and, in base64, an output. *)
Definition fetched (status_id : Z) (stdout_b64 : option string) : Judge.HttpReply :=
  Judge.Response 200 []
    {| Judge.j_token := None; Judge.j_status := Some status_id;
       Judge.j_stdout := Py.of_string <$> stdout_b64; Judge.j_stderr := None;
       Judge.j_compile_output := None; Judge.j_time := None;
       Judge.j_memory := None |}.

Definition sum_task : Judge.CodingTask :=
  {| Judge.task_session_id := Py.of_string "session-1";
     Judge.test_cases :=
       [ {| Judge.tc_input := Some (Py.of_string "[1,2,3]");
            Judge.tc_expected_output := Some (Py.of_string "6") |};
         {| Judge.tc_input := Some (Py.of_string "[0]");
            Judge.tc_expected_output := Some (Py.of_string "0") |} ] |}.

Definition empty_task : Judge.CodingTask :=
  {| Judge.task_session_id := Py.of_string "session-1"; Judge.test_cases := [] |}.

Definition world_of (judge : nat → Judge.HttpReply) : Judge.World :=
  {| Judge.judge0 := judge; Judge.requests := 0; Judge.submitted := [];
     Judge.fetched := []; Judge.slept := 0;
     Judge.coding_tasks :=
       <[Py.of_string "task-1" := sum_task]>
         (<[Py.of_string "task-0" := empty_task]> ∅);
     Judge.code_submissions := [] |}.

(** A judge that accepts the first request as a submission and then
    answers every fetch with status 2, "Processing". *)
Definition stuck_judge (n : nat) : Judge.HttpReply :=
  match n with
  | 0 => created "tok"
  | S _ => fetched 2 None
  end.

(** A judge that is stuck on every submission: a submission is followed
    by thirty fetches, all answered "Processing". *)
Definition stuck_on_every_test (n : nat) : Judge.HttpReply :=
  if (n mod 31 =? 0)%nat then created "tok" else fetched 2 None.

(** A judge that accepts a submission and then fails every fetch. *)
Definition unreachable_judge (n : nat) : Judge.HttpReply :=
  if (n mod 31 =? 0)%nat then created "tok" else Judge.Timeout.

(** A judge that answers at once: "6" for the first program, " 1 " for
    the second, both accepted. *)
Definition prompt_judge (n : nat) : Judge.HttpReply :=
  match n with
  | 0 | 2 => created "tok"
  | 1 => fetched 3 (Some "Ng==")
  | _ => fetched 3 (Some "IDEg")
  end.


Definition alice : str := Py.of_string "session-1".

Definition message (type : string) (code_ : option str) : Message :=
  {| m_type := Some (Py.of_string type); m_code := code_; m_cursor := None;
     m_language := None; m_input := None; m_content := None |}.

Definition start (judge : nat → Judge.HttpReply) : State :=
  {| manager := init; outbox := []; world := world_of judge |}.

(** The session opened on socket 7 at time 0. *)
Definition connected (judge : nat → Judge.HttpReply) : State :=
  run [(0%Z, Open 7 alice (Py.of_string "task-1"))] (start judge).

(** The same after a first edit, of empty code, at time 0. *)
Definition edited_once : State :=
  run [(0%Z, Receive alice (Some (message "code_edit" (Some []))))]
    (connected stuck_judge).

(** Code of exactly 50 characters, and pasted text. *)
Definition fifty : str := repeat 120%N 50.

Definition paste (n : nat) : Message :=
  {| m_type := Some (Py.of_string "paste_event"); m_code := None;
     m_cursor := None; m_language := None; m_input := None;
     m_content := Some (repeat 120%N n) |}.


(** A world whose next reply is an accepted result with stdout "6". *)
Definition answered_world : Judge.World :=
  (Judge.submit_code
     {| Judge.source_code := Py.of_string "print(6)"; Judge.language_id := 71;
        Judge.stdin := [] |}
     (world_of prompt_judge)).2.

End Examples.

(** ** Vocabulary of the further properties *)
Module Frames.
Import WsCoding.

(** The replies that end a [run_code] and a [submit_code]. *)
Definition run_reply (ev : Event) : Prop :=
  match ev with
  | RunResult _ _ _ _ _ | RunFailed _ => True
  | _ => False
  end.

Definition submit_reply (ev : Event) : Prop :=
  match ev with
  | SubmitResult _ _ _ _ | SubmitFailed _ => True
  | _ => False
  end.

(** The five message types [handle_message] knows. *)
Definition known_types : list string :=
  ["code_edit"; "run_code"; "submit_code"; "paste_event"; "tab_switch"]%string.

(** What one message may have done to the connection of its session:
    the socket and the task stay, the paste list is the old one or the
    old one with one more record, the counter is the old one or one
    more. *)
Definition connection_moved (conn conn' : Connection) : Prop :=
  websocket conn' = websocket conn
  ∧ task_id conn' = task_id conn
  ∧ (paste_events conn' = paste_events conn
     ∨ ∃ pasted now,
         paste_events conn' =
           paste_events conn ++
             [{| content := take 200 pasted; paste_timestamp := now;
                 length_ := Py.len pasted |}])
  ∧ (tab_switches conn' = tab_switches conn
     ∨ tab_switches conn' = S (tab_switches conn)).


(** A stored paste keeps at most 200 characters, and as many as the
    paste had when it had fewer. *)
Definition paste_bounded (p : PasteEvent) : Prop :=
  Py.len (content p) = Z.min 200 (length_ p).

Definition pastes_bounded (st : State) : Prop :=
  ∀ sid conn, active_connections (manager st) !! sid = Some conn →
              Forall paste_bounded (paste_events conn).

(** An input that is a [code_edit] message for the session. *)
Definition edits (sid : str) (input : Input) : Prop :=
  ∃ message, input = Receive sid (Some message)
             ∧ m_type message = Some (Py.of_string "code_edit").

(** An input that is a text received for the session. *)
Definition received_for (sid : str) (input : Input) : Prop :=
  ∃ data, input = Receive sid data.

End Frames.

Module JudgeFrames.
Import Judge.

(** What the test runner leaves alone in the world while it submits
    and polls: the two tables of the database and the judge itself. *)
Definition same_tables (w w' : World) : Prop :=
  code_submissions w' = code_submissions w
  ∧ coding_tasks w' = coding_tasks w
  ∧ judge0 w' = judge0 w.

(** A character that [base64.b64decode] reads: a digit of the alphabet
    or the pad. *)
Definition base64_char (c : N) : bool :=
  (c =? Base64.BASE64_PAD)%N || bool_decide (is_Some (Base64.table_a2b_base64 c)).

End JudgeFrames.

(** ** What [submit_code] puts on the wire *)
Module Encode.

(** [table_b2a_base64]: the digit of a value below 64. *)
Definition table_b2a_base64 (v : N) : N :=
  (if v <? 26 then v + 65
   else if v <? 52 then v - 26 + 97
   else if v <? 62 then v - 52 + 48
   else if v =? 62 then 43
   else 47)%N.

(** [base64.b64encode]: four digits for every three bytes, the last
    group padded. *)
Fixpoint b64encode (data : bytes) : bytes :=
  match data with
  | [] => []
  | [a] =>
      [table_b2a_base64 (N.shiftr a 2);
       table_b2a_base64 (N.shiftl (N.land a 3) 4);
       Base64.BASE64_PAD; Base64.BASE64_PAD]
  | [a; b] =>
      [table_b2a_base64 (N.shiftr a 2);
       table_b2a_base64 (N.lor (N.shiftl (N.land a 3) 4) (N.shiftr b 4));
       table_b2a_base64 (N.shiftl (N.land b 15) 2);
       Base64.BASE64_PAD]
  | a :: b :: c :: rest =>
      table_b2a_base64 (N.shiftr a 2)
      :: table_b2a_base64 (N.lor (N.shiftl (N.land a 3) 4) (N.shiftr b 4))
      :: table_b2a_base64 (N.lor (N.shiftl (N.land b 15) 2) (N.shiftr c 6))
      :: table_b2a_base64 (N.land c 63)
      :: b64encode rest
  end.

(** One character of [str.encode()], which is UTF-8 and strict: a
    surrogate has no encoding and raises [UnicodeEncodeError], a
    [ValueError].  A Python string holds no value from 1114112 on. *)
Definition encode_char (c : N) : Res bytes :=
  (if c <? 128 then Ret [c]
   else if c <? 2048 then
     Ret [N.lor 192 (N.shiftr c 6); N.lor 128 (N.land c 63)]
   else if c <? 65536 then
     if (55296 <=? c) && (c <=? 57343) then
       Raise (ValueError (Py.of_string "surrogates not allowed"))
     else
       Ret [N.lor 224 (N.shiftr c 12); N.lor 128 (N.land (N.shiftr c 6) 63);
            N.lor 128 (N.land c 63)]
   else if c <? 1114112 then
     Ret [N.lor 240 (N.shiftr c 18); N.lor 128 (N.land (N.shiftr c 12) 63);
          N.lor 128 (N.land (N.shiftr c 6) 63); N.lor 128 (N.land c 63)]
   else Raise (ValueError (Py.of_string "not a character")))%N.

Fixpoint encode (s : str) : Res bytes :=
  match s with
  | [] => Ret []
  | c :: s' =>
      res_bind (encode_char c) (λ first,
      res_bind (encode s') (λ rest, Ret (first ++ rest)))
  end.

(** [base64.b64encode(text.encode()).decode()] *)
Definition transport (text : str) : Res str :=
  res_bind (encode text) (λ raw, Ret (b64encode raw)).

(** The dict [submission_data] of [submit_code]. *)
Record SubmissionData : Type := {
  sd_source_code : str;
  sd_language_id : Z;
  sd_stdin : str;
  sd_expected_output : str;
  cpu_time_limit : Z;
  cpu_extra_time : Q;
  wall_time_limit : Z;
  memory_limit : Z;
  stack_limit : Z;
  enable_per_process_and_thread_time_limit : bool;
  enable_per_process_and_thread_memory_limit : bool
}.

Definition submission_data (request : Judge.CodeSubmissionRequest) : Res SubmissionData :=
  res_bind (transport (Judge.source_code request)) (λ source,
  res_bind (match Judge.stdin request with
            | [] => Ret []
            | _ :: _ => transport (Judge.stdin request)
            end) (λ input,
  Ret {| sd_source_code := source;
         sd_language_id := Judge.language_id request;
         sd_stdin := input;
         sd_expected_output := [];
         cpu_time_limit := 2;
         cpu_extra_time := 1 # 2;
         wall_time_limit := 5;
         memory_limit := 128000;
         stack_limit := 64000;
         enable_per_process_and_thread_time_limit := true;
         enable_per_process_and_thread_memory_limit := true |})).

(** A field of a reply that carries a text the way [submit_code]
    would send it; no field for no text. *)
Definition carries (field text : option str) : Prop :=
  match text with
  | None => field = None
  | Some t => ∃ f, transport t = Ret f ∧ field = Some f
  end.

(** The bytes, for the checks that run over all of them. *)
Definition all_bytes : list N := N.of_nat <$> seq 0 256.

Definition digit_ok (v : N) : bool :=
  (negb (table_b2a_base64 v =? Base64.BASE64_PAD)
   && (table_b2a_base64 v <? 128)
   && match Base64.table_a2b_base64 (table_b2a_base64 v) with
      | Some v' => v' =? v
      | None => false
      end)%N.

(** The first two digits of a group give back its first byte. *)
Definition first_ok (a b : N) : bool :=
  (let v1 := N.shiftr a 2 in
   let v2 := N.lor (N.shiftl (N.land a 3) 4) (N.shiftr b 4) in
   (v1 <? 64) && (v2 <? 64)
   && (N.lor (N.shiftl v1 2) (N.shiftr v2 4) =? a)
   && (N.land v2 15 =? N.shiftr b 4)
   && (N.shiftl (N.land a 3) 4 <? 64)
   && (N.lor (N.shiftl v1 2) (N.shiftr (N.shiftl (N.land a 3) 4) 4) =? a))%N.

(** The last two digits of a group give back its last two bytes. *)
Definition last_ok (b c : N) : bool :=
  (let v3 := N.lor (N.shiftl (N.land b 15) 2) (N.shiftr c 6) in
   let v4 := N.land c 63 in
   (v3 <? 64) && (v4 <? 64)
   && (N.lor (N.shiftl (N.shiftr b 4) 4) (N.shiftr v3 2) =? b)
   && (N.lor (N.shiftl (N.land v3 3) 6) v4 =? c)
   && (N.shiftl (N.land b 15) 2 <? 64)
   && (N.lor (N.shiftl (N.shiftr b 4) 4) (N.shiftr (N.shiftl (N.land b 15) 2) 2) =? b))%N.

(** A continuation byte made of six bits. *)
Definition continuation_ok (x : N) : bool :=
  (let b := N.lor 128 x in
   (b =? 128 + x) && (N.land b 63 =? x))%N.

(** [b] is the lead byte of a character of [n] more bytes, with the
    bits [cp] and a next byte in [lo..hi]. *)
Definition is_lead (b : N) (n : nat) (cp lo hi : N) : bool :=
  match Utf8.classify b with
  | Utf8.Lead n' cp' lo' hi' =>
      (Nat.eqb n' n && (cp' =? cp) && (lo' =? lo) && (hi' =? hi) && (b <? 256))%N
  | _ => false
  end.

Definition lead2_ok (h : N) : bool :=
  (h <? 2)%N || is_lead (N.lor 192 h) 1 h 128 191.

Definition lead3_ok (h : N) : bool :=
  is_lead (N.lor 224 h) 2 h (if (h =? 0)%N then 160%N else 128%N)
    (if (h =? 13)%N then 159%N else 191%N).

Definition lead4_ok (h : N) : bool :=
  is_lead (N.lor 240 h) 3 h (if (h =? 0)%N then 144%N else 128%N)
    (if (h =? 4)%N then 143%N else 191%N).

End Encode.

(** ** More concrete messages and worlds *)
Module Cases.
Import WsCoding Examples.

(** The connection of [alice] in [connected]. *)
Definition her_connection : Connection :=
  Props.new_connection 0 7 (Py.of_string "task-1").

Definition run_in (language : string) : Message :=
  {| m_type := Some (Py.of_string "run_code");
     m_code := Some (Py.of_string "print(1)"); m_cursor := None;
     m_language := Some (Py.of_string language); m_input := None;
     m_content := None |}.

Definition bob : str := Py.of_string "session-2".

(** Two sessions open, [alice] on socket 7 and [bob] on socket 8. *)
Definition two_sessions : State :=
  run [(0%Z, Open 7 alice (Py.of_string "task-1"));
       (1%Z, Open 8 bob (Py.of_string "task-0"))] (start stuck_judge).

(** A session that pastes 250 characters and then edits. *)
Definition busy_trace : list (datetime * Input) :=
  [(0%Z, Open 7 alice (Py.of_string "task-1"));
   (1%Z, Receive alice (Some (paste 250)));
   (2%Z, Receive alice (Some (message "code_edit" (Some fifty))))].

(** A request whose code is not ASCII. *)
Definition accented_request : Judge.CodeSubmissionRequest :=
  {| Judge.source_code := [112; 114; 105; 110; 116; 40; 34; 233; 8364; 128512; 34; 41]%N;
     Judge.language_id := 71; Judge.stdin := [] |}.

End Cases.

(** * Properties *)

(** Unfolds the monad down to functions on states. *)
Ltac run_monad :=
  unfold mbind, M_bind, mret, M_ret, try, get, modify, raise, lift_res in *;
  simpl in *.

Section Registry.
Import WsCoding Props.

Lemma send_message_registered sid ev conn st :
  active_connections (manager st) !! sid = Some conn →
  send_message sid ev st =
    (Ret tt, {| manager := manager st;
                outbox := outbox st ++ [(websocket conn, ev)];
                world := world st |}).
Proof. intros H. unfold send_message. run_monad. rewrite H. reflexivity. Qed.

Lemma send_message_unregistered sid ev st :
  active_connections (manager st) !! sid = None →
  send_message sid ev st = (Ret tt, st).
Proof. intros H. unfold send_message. run_monad. rewrite H. reflexivity. Qed.

(** C10: a message for a session that is not in [active_connections]
    does nothing at all: [handle_message] returns at once, leaving the
    registry, the snapshots, the outbox and the world as they were, and
    [send_message] for such a session sends nothing either. *)
Theorem handle_message_unregistered_noop now sid (message : Message) ev st :
  active_connections (manager st) !! sid = None →
  handle_message now sid message st = (Ret tt, st)
  ∧ send_message sid ev st = (Ret tt, st).
Proof.
  intros H. split.
  - unfold handle_message. run_monad. rewrite H. reflexivity.
  - apply send_message_unregistered, H.
Qed.

Lemma disconnect_deletes sid st :
  disconnect sid st =
    (Ret tt, {| manager := {| active_connections :=
                                delete sid (active_connections (manager st));
                              code_snapshots := code_snapshots (manager st) |};
                outbox := outbox st; world := world st |}).
Proof.
  unfold disconnect. run_monad.
  destruct (active_connections (manager st) !! sid) eqn:E; [reflexivity|].
  rewrite delete_id by exact E. reflexivity.
Qed.

Lemma connect_snapshots now ws sid tid st other :
  code_snapshots (manager (connect now ws sid tid st).2) !! other =
    if decide (other = sid)
    then Some (default [] (code_snapshots (manager st) !! sid))
    else code_snapshots (manager st) !! other.
Proof.
  unfold connect. run_monad.
  destruct (code_snapshots (manager st) !! sid) eqn:E; simpl;
    case_decide; subst; simplify_map_eq; reflexivity.
Qed.

(** C9: [disconnect] takes the session out of [active_connections] and
    leaves [code_snapshots] as it is; [connect], in whatever state it
    runs, puts a new connection in the place of the one registered for
    the session, keeps the snapshot list the session has, and starts an
    empty one only when the session has none; so a session that
    disconnects and connects again finds its snapshots. *)
Theorem disconnect_connect_keep_snapshots now ws sid tid st st' :
  let st1 := (disconnect sid st).2 in
  let st2 := (connect now ws sid tid st').2 in
  ((disconnect sid st).1 = Ret tt
   ∧ active_connections (manager st1) = delete sid (active_connections (manager st))
   ∧ active_connections (manager st1) !! sid = None
   ∧ code_snapshots (manager st1) = code_snapshots (manager st))
  ∧ ((connect now ws sid tid st').1 = Ret tt
     ∧ active_connections (manager st2) =
         <[sid := new_connection now ws tid]> (active_connections (manager st'))
     ∧ code_snapshots (manager st2) !! sid =
         Some (default [] (code_snapshots (manager st') !! sid))
     ∧ (is_Some (code_snapshots (manager st') !! sid) →
        code_snapshots (manager st2) = code_snapshots (manager st'))
     ∧ ∀ other, other ≠ sid →
         code_snapshots (manager st2) !! other = code_snapshots (manager st') !! other)
  ∧ code_snapshots (manager (connect now ws sid tid st1).2) !! sid
    = Some (default [] (code_snapshots (manager st) !! sid)).
Proof.
  intros st1 st2. split; [|split].
  3:{ pose proof (connect_snapshots now ws sid tid st1 sid) as H.
      rewrite decide_True in H by reflexivity. rewrite H.
      subst st1. rewrite disconnect_deletes. reflexivity. }
  - subst st1. rewrite disconnect_deletes. simpl.
    repeat split. apply lookup_delete_eq.
  - subst st2. repeat split.
    + pose proof (connect_snapshots now ws sid tid st' sid) as H.
      rewrite decide_True in H by reflexivity. exact H.
    + intros [l Hl]. unfold connect. run_monad. rewrite Hl. reflexivity.
    + intros other Hne.
      pose proof (connect_snapshots now ws sid tid st' other) as H.
      rewrite decide_False in H by exact Hne. exact H.
Qed.

End Registry.

Section Proctoring.
Import WsCoding Props.

Lemma paste_event_step now sid (message : Message) conn st :
  active_connections (manager st) !! sid = Some conn →
  m_type message = Some (Py.of_string "paste_event") →
  let pasted := default [] (m_content message) in
  let conn' :=
    {| websocket := websocket conn; task_id := task_id conn;
       last_code := last_code conn; last_activity := last_activity conn;
       paste_events :=
         paste_events conn ++
           [{| content := take 200 pasted; paste_timestamp := now;
               length_ := Py.len pasted |}];
       tab_switches := tab_switches conn |} in
  handle_message now sid message st =
    (Ret tt,
     {| manager := {| active_connections :=
                        <[sid := conn']> (active_connections (manager st));
                      code_snapshots := code_snapshots (manager st) |};
        outbox := outbox st ++
                    (if (100 <? Py.len pasted)%Z
                     then [(websocket conn, large_paste_alert)] else []);
        world := world st |}).
Proof.
  intros Hc Ht pasted conn'.
  unfold handle_message. run_monad. rewrite Hc, Ht. simpl.
  unfold _handle_paste_event, set_connection, send_message, send_json.
  run_monad. fold pasted.
  destruct (100 <? Py.len pasted)%Z; simpl.
  - rewrite lookup_insert_eq. reflexivity.
  - rewrite app_nil_r. reflexivity.
Qed.

(** C7: a [paste_event] message appends to the connection's paste list
    one record with the first 200 characters of the pasted content and
    the length of all of it, and a [large_paste] alert of severity
    [medium] goes out exactly when that length exceeds 100: it does for
    101 characters and does not for 100. *)
Theorem paste_event_recorded_and_alerted now sid (message : Message) conn st :
  active_connections (manager st) !! sid = Some conn →
  m_type message = Some (Py.of_string "paste_event") →
  let pasted := default [] (m_content message) in
  let st' := (handle_message now sid message st).2 in
  (∃ conn',
     active_connections (manager st') !! sid = Some conn'
     ∧ paste_events conn' =
         paste_events conn ++
           [{| content := take 200 pasted; paste_timestamp := now;
               length_ := Z.of_nat (length pasted) |}])
  ∧ ((100 < length pasted)%nat →
     outbox st' = outbox st ++ [(websocket conn, large_paste_alert)])
  ∧ ((length pasted ≤ 100)%nat → outbox st' = outbox st)
  ∧ (length pasted = 101%nat →
     outbox st' = outbox st ++ [(websocket conn, large_paste_alert)])
  ∧ (length pasted = 100%nat → outbox st' = outbox st).
Proof.
  intros Hc Ht pasted st'. subst st'.
  rewrite (paste_event_step now sid message conn st Hc Ht). simpl.
  fold pasted. unfold Py.len.
  assert (Hyes : (100 < length pasted)%nat →
            (100 <? Z.of_nat (length pasted))%Z = true)
    by (intros; apply Z.ltb_lt; lia).
  assert (Hno : (length pasted ≤ 100)%nat →
            (100 <? Z.of_nat (length pasted))%Z = false)
    by (intros; apply Z.ltb_ge; lia).
  split; [|repeat split].
  - eexists. split; [apply lookup_insert_eq|reflexivity].
  - intros H. rewrite Hyes by exact H. reflexivity.
  - intros H. rewrite Hno by exact H. apply app_nil_r.
  - intros H. rewrite Hyes by lia. reflexivity.
  - intros H. rewrite Hno by lia. apply app_nil_r.
Qed.

Lemma tab_switch_step now sid (message : Message) conn st :
  active_connections (manager st) !! sid = Some conn →
  m_type message = Some (Py.of_string "tab_switch") →
  let conn' :=
    {| websocket := websocket conn; task_id := task_id conn;
       last_code := last_code conn; last_activity := last_activity conn;
       paste_events := paste_events conn;
       tab_switches := tab_switches conn + 1 |} in
  handle_message now sid message st =
    (Ret tt,
     {| manager := {| active_connections :=
                        <[sid := conn']> (active_connections (manager st));
                      code_snapshots := code_snapshots (manager st) |};
        outbox := outbox st ++
                    (if (5 <? tab_switches conn + 1)%nat
                     then [(websocket conn, tab_switch_alert (tab_switches conn + 1))]
                     else []);
        world := world st |}).
Proof.
  intros Hc Ht conn'.
  unfold handle_message. run_monad. rewrite Hc, Ht. simpl.
  unfold _handle_tab_switch, set_connection, send_message, send_json.
  run_monad.
  destruct (5 <? tab_switches conn + 1)%nat; simpl.
  - rewrite lookup_insert_eq. reflexivity.
  - rewrite app_nil_r. reflexivity.
Qed.

(** The alerts sent while the counter goes from [n] to [n + k]. *)
Lemma tab_switches_from sid (messages : list (datetime * Message)) :
  Forall (λ p, m_type p.2 = Some (Py.of_string "tab_switch")) messages →
  ∀ st conn,
  active_connections (manager st) !! sid = Some conn →
  let st' := run (receive_all sid messages) st in
  (∃ conn', active_connections (manager st') !! sid = Some conn'
            ∧ websocket conn' = websocket conn
            ∧ tab_switches conn' = (tab_switches conn + length messages)%nat)
  ∧ outbox st' =
      outbox st ++
        ((λ n, (websocket conn, tab_switch_alert n)) <$>
           filter (λ n, 5 < n)%nat (seq (S (tab_switches conn)) (length messages))).
Proof.
  induction 1 as [|[now m] messages Hm _ IH]; intros st conn Hc; simpl.
  - split; [exists conn; repeat split; [exact Hc|lia]|].
    symmetry. apply app_nil_r.
  - simpl in Hm. rewrite (tab_switch_step now sid m conn st Hc Hm). simpl.
    match goal with |- context [run _ ?s] => set (st1 := s) end.
    specialize (IH st1
      {| websocket := websocket conn; task_id := task_id conn;
         last_code := last_code conn; last_activity := last_activity conn;
         paste_events := paste_events conn;
         tab_switches := tab_switches conn + 1 |}).
    destruct IH as [(conn' & Hc' & Hw & Hn) Hout].
    { subst st1. simpl. apply lookup_insert_eq. }
    simpl in *. split.
    + exists conn'. repeat split; [exact Hc'|exact Hw|lia].
    + rewrite Hout. subst st1. simpl. rewrite <- app_assoc. f_equal.
      replace (tab_switches conn + 1)%nat with (S (tab_switches conn)) by lia.
      rewrite filter_cons. destruct (5 <? S (tab_switches conn))%nat eqn:E.
      * apply Nat.ltb_lt in E. rewrite decide_True by exact E. reflexivity.
      * apply Nat.ltb_ge in E. rewrite decide_False by lia. reflexivity.
Qed.

Lemma filter_above_five k :
  filter (λ n, 5 < n)%nat (seq 1 k) = seq 6 (k - 5).
Proof.
  destruct (Nat.le_gt_cases k 5) as [Hle|Hgt].
  - replace (k - 5)%nat with 0%nat by lia. simpl.
    do 6 (destruct k as [|k]; [reflexivity|]). lia.
  - replace k with (5 + (k - 5))%nat at 1 by lia.
    rewrite seq_app, filter_app. simpl.
    generalize (k - 5)%nat as j. intros j.
    assert (H : ∀ a, (5 < a)%nat → filter (λ n, 5 < n)%nat (seq a j) = seq a j).
    { induction j as [|j IH]; intros a Ha; [reflexivity|].
      simpl. rewrite filter_cons, decide_True by exact Ha.
      rewrite IH by lia. reflexivity. }
    apply H. lia.
Qed.

(** C6: on a session that has just been connected, every [tab_switch]
    message adds one to the connection's counter, so that it counts the
    messages received, and the alerts sent are those of the 6th message
    and of every later one, each with the count reached, severity [high]
    and kind [excessive_tab_switching]; up to five messages send none. *)
Theorem tab_switch_alerts_from_sixth now0 ws sid tid st
    (messages : list (datetime * Message)) :
  Forall (λ p, m_type p.2 = Some (Py.of_string "tab_switch")) messages →
  let st0 := (connect now0 ws sid tid st).2 in
  let st' := run (receive_all sid messages) st0 in
  (∃ conn', active_connections (manager st') !! sid = Some conn'
            ∧ tab_switches conn' = length messages)
  ∧ outbox st' =
      outbox st ++ ((λ n, (ws, tab_switch_alert n)) <$> seq 6 (length messages - 5))
  ∧ ((length messages ≤ 5)%nat → outbox st' = outbox st).
Proof.
  intros Hm st0 st'.
  assert (Hc : active_connections (manager st0) !! sid
               = Some (new_connection now0 ws tid)).
  { subst st0. unfold connect. run_monad. apply lookup_insert_eq. }
  destruct (tab_switches_from sid messages Hm st0 _ Hc)
    as [(conn' & Hc' & _ & Hn) Hout].
  fold st' in Hc', Hout. simpl in Hn, Hout.
  rewrite filter_above_five in Hout.
  change (outbox st0) with (outbox st) in Hout.
  split; [exists conn'; split; [exact Hc'|exact Hn]|].
  split; [exact Hout|].
  intros Hle. rewrite Hout.
  replace (length messages - 5)%nat with 0%nat by lia. apply app_nil_r.
Qed.

End Proctoring.

Section Snapshots.
Import WsCoding Props.

Lemma should_snapshot_due snaps code_ now :
  should_snapshot snaps code_ now = true ↔ snapshot_due snaps code_ now.
Proof.
  unfold should_snapshot, snapshot_due.
  destruct (last snaps) as [prev|] eqn:E.
  - rewrite orb_true_iff, !Z.ltb_lt. split.
    + intros H. right. exists prev. split; [reflexivity|lia].
    + intros [->|(p & Hp & H)]; [discriminate|].
      injection Hp as <-. lia.
  - split; [|reflexivity]. intros _. left.
    destruct snaps as [|s snaps] using rev_ind; [reflexivity|].
    rewrite last_snoc in E. discriminate.
Qed.

Lemma code_edit_step now sid (message : Message) conn snaps st :
  active_connections (manager st) !! sid = Some conn →
  m_type message = Some (Py.of_string "code_edit") →
  code_snapshots (manager st) !! sid = Some snaps →
  let code_ := default [] (m_code message) in
  let conn' :=
    {| websocket := websocket conn; task_id := task_id conn;
       last_code := code_; last_activity := now;
       paste_events := paste_events conn;
       tab_switches := tab_switches conn |} in
  handle_message now sid message st =
    (Ret tt,
     {| manager := {| active_connections :=
                        <[sid := conn']> (active_connections (manager st));
                      code_snapshots :=
                        if should_snapshot snaps code_ now
                        then <[sid := appended snaps (snapshot_of now message)]>
                               (code_snapshots (manager st))
                        else code_snapshots (manager st) |};
        outbox := outbox st ++ [(websocket conn, EditAck now)];
        world := world st |}).
Proof.
  intros Hc Ht Hs code_ conn'.
  unfold handle_message. run_monad. rewrite Hc, Ht. simpl.
  unfold _handle_code_edit, set_connection, set_snapshots, send_message, send_json.
  run_monad. rewrite Hs. fold code_.
  destruct (should_snapshot snaps code_ now); simpl;
    rewrite lookup_insert_eq; reflexivity.
Qed.

(** The policy of [_handle_code_edit]: a [code_edit] message appends a snapshot
    when the session has none, or the new code is more than 50
    characters longer than that of the most recent snapshot, or more
    than 30 seconds have passed since that snapshot, and leaves the list
    as it is otherwise; the first edit of a session always appends. *)
Theorem code_edit_snapshot_policy now sid (message : Message) conn snaps st :
  active_connections (manager st) !! sid = Some conn →
  m_type message = Some (Py.of_string "code_edit") →
  code_snapshots (manager st) !! sid = Some snaps →
  let code_ := default [] (m_code message) in
  let after := code_snapshots (manager (handle_message now sid message st).2) !! sid in
  (snapshot_due snaps code_ now →
   after = Some (appended snaps (snapshot_of now message)))
  ∧ (¬ snapshot_due snaps code_ now → after = Some snaps)
  ∧ (snaps = [] → after = Some [snapshot_of now message]).
Proof.
  intros Hc Ht Hs code_ after. subst after.
  rewrite (code_edit_step now sid message conn snaps st Hc Ht Hs). simpl.
  fold code_. repeat split.
  - intros H. apply should_snapshot_due in H. rewrite H.
    apply lookup_insert_eq.
  - intros H. destruct (should_snapshot snaps code_ now) eqn:E.
    + apply should_snapshot_due in E. contradiction.
    + exact Hs.
  - intros ->. simpl. apply lookup_insert_eq.
Qed.




Lemma keeps_send_message sid ev : keeps_snapshots (send_message sid ev).
Proof.
  intros st. unfold send_message. run_monad.
  destruct (active_connections (manager st) !! sid); reflexivity.
Qed.
















End Snapshots.

Section Executor.
Import Judge JudgeProps.




Lemma get_submission_result_200 token w text json :
  judge0 w (requests w) = Response 200 text json →
  get_submission_result token w = (decode_result json, (http_get token w).2).
Proof.
  intros H. unfold get_submission_result. run_monad. rewrite H. reflexivity.
Qed.

(** ASCII bytes are their own UTF-8 decoding. *)
Lemma decode_ignore_ascii raw :
  Forall (λ b, b < 128)%N raw → Utf8.decode_ignore raw = raw.
Proof.
  unfold Utf8.decode_ignore. induction 1 as [|b raw Hb _ IH]; [reflexivity|].
  simpl. unfold Utf8.classify. apply N.ltb_lt in Hb. rewrite Hb.
  rewrite IH. reflexivity.
Qed.


End Executor.

Section Runner.
Import Judge JudgeProps.

Lemma poll_S n token result :
  poll (S n) token result =
    (attempt ← try (get_submission_result token);
     match attempt with
     | Ret r => if terminal r then mret (Some r)
                else sleep 1;; poll n token (Some r)
     | Raise _ => sleep 1;; poll n token result
     end).
Proof. reflexivity. Qed.

(** The polling of the test runner always ends, and never raises. *)
Lemma poll_total n : ∀ token r w, ∃ polled w', poll n token r w = (Ret polled, w').
Proof.
  induction n as [|n IH]; intros token r w.
  - eexists _, _. reflexivity.
  - rewrite poll_S. run_monad.
    destruct (get_submission_result token w) as [[res|e] w1].
    + destruct (terminal res).
      * eexists _, _. reflexivity.
      * apply IH.
    + apply IH.
Qed.

Lemma or_empty (a : option str) : Py.or_ a [] = default [] a.
Proof. destruct a as [[|c s]|]; reflexivity. Qed.

Lemma status_id_accepted r : (status_id r =? 3)%Z = true ↔ status r = Some 3%Z.
Proof.
  unfold status_id. rewrite Z.eqb_eq.
  destruct (status r) as [z|]; simpl; split; intros H; try congruence; discriminate.
Qed.

(** What one turn of the loop over the test cases does once the
    submission has a token and the polling has ended with [polled]. *)
Lemma run_test_case_after_poll source_code language_id i test_case
    results passed_so_far w token w1 polled w2 :
  submit_code (request_for source_code language_id test_case) w = (Ret token, w1) →
  poll 30 token None w1 = (Ret polled, w2) →
  ∃ rec,
    run_test_case source_code language_id i test_case results passed_so_far w =
      (Ret (results ++ [rec],
            if passed rec then (passed_so_far + 1)%nat else passed_so_far), w2)
    ∧ Judge.test_case rec = (i + 1)%nat
    ∧ expected rec = Py.strip (default [] (tc_expected_output test_case))
    ∧ (passed rec = true ↔ accepted_and_equal polled test_case)
    ∧ (polled = None → error rec = timeout_marker ∧ actual rec = None)
    ∧ (∀ r, polled = Some r → status r ≠ Some 3%Z →
         error rec = Some (Py.or_ (stderr r)
                             (Py.or_ (compile_output r) (Py.of_string "Unknown error")))).
Proof.
  intros Hs Hp. unfold run_test_case, request_for in *. run_monad.
  rewrite Hs, Hp. unfold accepted_and_equal.
  destruct polled as [r|].
  - destruct (status_id r =? 3)%Z eqn:E.
    + eexists (Build_TestResult _ _ _ _ _ _ _). split; [reflexivity|].
      simpl. repeat split; try discriminate.
      * intros H. apply bool_decide_eq_true in H. exists r.
        repeat split; [apply status_id_accepted, E|].
        rewrite <- or_empty. exact H.
      * intros (r' & Hr & _ & Heq). injection Hr as <-.
        apply bool_decide_eq_true. rewrite or_empty. exact Heq.
      * intros r' Hr Hne. injection Hr as <-.
        apply status_id_accepted in E. contradiction.
    + eexists (Build_TestResult _ false _ _ _ _ _). split; [reflexivity|].
      simpl. repeat split; try discriminate.
      * intros (r' & Hr & Hst & _). injection Hr as <-.
        apply status_id_accepted in Hst. congruence.
      * intros r' Hr _. injection Hr as <-. reflexivity.
  - eexists (Build_TestResult _ false _ _ _ _ _). split; [reflexivity|].
      simpl. repeat split; try discriminate.
    intros (r' & Hr & _). discriminate.
Qed.

Lemma run_test_case_cases source_code language_id i test_case results passed_so_far w :
  (∃ e w1,
     submit_code (request_for source_code language_id test_case) w = (Raise e, w1)
     ∧ run_test_case source_code language_id i test_case results passed_so_far w
       = (Raise e, w1))
  ∨ (∃ token w1 polled w2,
       submit_code (request_for source_code language_id test_case) w = (Ret token, w1)
       ∧ poll 30 token None w1 = (Ret polled, w2)).
Proof.
  destruct (submit_code (request_for source_code language_id test_case) w)
    as [[token|e] w1] eqn:Hs.
  - right. destruct (poll_total 30 token None w1) as (polled & w2 & Hp).
    exists token, w1, polled, w2. split; [reflexivity|exact Hp].
  - left. exists e, w1. split; [reflexivity|].
    unfold run_test_case, request_for in *. run_monad. rewrite Hs. reflexivity.
Qed.

(** The loop adds one record for each test case, in order, and counts
    the records that passed. *)
Lemma run_test_cases_counts source_code language_id cases :
  ∀ i results passed_so_far w results' passed' w',
  run_test_cases source_code language_id i cases results passed_so_far w
    = (Ret (results', passed'), w') →
  ∃ recs,
    results' = results ++ recs
    ∧ length recs = length cases
    ∧ passed' = (passed_so_far + length (filter (λ r, passed r = true) recs))%nat
    ∧ ∀ k rec, recs !! k = Some rec →
        ∃ tc, cases !! k = Some tc
          ∧ Judge.test_case rec = (i + k + 1)%nat
          ∧ expected rec = Py.strip (default [] (tc_expected_output tc)).
Proof.
  induction cases as [|tc cases IH]; intros i results passed_so_far w results' passed' w' H.
  - simpl in H. injection H as <- <- <-. exists [].
    rewrite app_nil_r. repeat split; [simpl; lia|].
    intros k rec Hk. rewrite lookup_nil in Hk. discriminate.
  - simpl in H. unfold mbind, M_bind in H.
    destruct (run_test_case_cases source_code language_id i tc results passed_so_far w)
      as [(e & w1 & _ & Hr)|(token & w1 & polled & w2 & Hs & Hp)].
    + rewrite Hr in H. discriminate.
    + destruct (run_test_case_after_poll source_code language_id i tc results
                  passed_so_far w token w1 polled w2 Hs Hp)
        as (rec & Hr & Hi & He & _).
      rewrite Hr in H.
      apply IH in H as (recs & -> & Hlen & -> & Hrecs).
      exists (rec :: recs). repeat split.
      * rewrite <- app_assoc. reflexivity.
      * simpl. rewrite Hlen. reflexivity.
      * rewrite filter_cons. destruct (passed rec) eqn:E.
        -- rewrite decide_True by reflexivity. simpl. lia.
        -- rewrite decide_False by discriminate. reflexivity.
      * intros [|k] rec' Hk; simpl in Hk.
        -- injection Hk as <-. exists tc. repeat split; [rewrite Hi; lia|exact He].
        -- destruct (Hrecs k rec' Hk) as (tc' & Htc & Hi' & He').
           exists tc'. repeat split; [exact Htc|rewrite Hi'; lia|exact He'].
Qed.

(** [run_code_tests] once the task is found and the language is known. *)
Lemma run_code_tests_found task_id source_code language w task language_id :
  coding_tasks w !! task_id = Some task →
  Py.dict_get LANGUAGE_MAP (Py.lower language) = Some language_id →
  run_code_tests task_id source_code language w =
    match run_test_cases source_code language_id 0 (test_cases task) [] 0 w with
    | (Ret (results, passed_count), w1) =>
        let res := {| score := compute_score passed_count (length (test_cases task));
                      passed_tests := passed_count;
                      total_tests := length (test_cases task);
                      test_results := results |} in
        (Ret res,
         (db_add {| coding_task_id := task_id;
                    submission_session_id := task_session_id task;
                    code := source_code; language := language;
                    result := res |} w1).2)
    | (Raise e, w1) => (Raise e, w1)
    end.
Proof.
  intros Htask Hlang. unfold run_code_tests.
  unfold mbind at 1, M_bind at 1, get at 1. cbv beta iota.
  rewrite Htask, Hlang. unfold mbind, M_bind.
  destruct (run_test_cases _ _ _ _ _ _ w) as [[[results passed_count]|e] w1];
    reflexivity.
Qed.


End Runner.


Section Attempts.
Import Judge JudgeProps.

Lemma submit_code_submitted request w :
  submitted (submit_code request w).2 = submitted w ++ [request].
Proof.
  unfold submit_code. run_monad.
  destruct (judge0 w (requests w)) as [|e|status_code text json]; try reflexivity.
  destruct (negb _); [reflexivity|]. destruct (negb _); reflexivity.
Qed.

Lemma get_submission_result_submitted token w :
  submitted (get_submission_result token w).2 = submitted w.
Proof.
  unfold get_submission_result. run_monad.
  destruct (judge0 w (requests w)) as [|e|status_code text json]; try reflexivity.
  destruct (negb _); reflexivity.
Qed.

Lemma poll_submitted n : ∀ token res w, submitted (poll n token res w).2 = submitted w.
Proof.
  induction n as [|n IH]; intros token res w; [reflexivity|].
  rewrite poll_S. unfold mbind at 1, M_bind at 1, try.
  pose proof (get_submission_result_submitted token w) as Hg.
  destruct (get_submission_result token w) as [[r|e] w1]; simpl in Hg.
  - destruct (terminal r); [exact Hg|].
    unfold mbind, M_bind, sleep. simpl. rewrite IH. exact Hg.
  - unfold mbind, M_bind, sleep. simpl. rewrite IH. exact Hg.
Qed.

(** X18: no test case is skipped: when the run comes back, one program was
    submitted for each test case of the task, in order, each with the
    input of its test case, whatever became of the test cases before. *)
Lemma run_test_cases_attempts_all source_code language_id cases :
  ∀ i results passed_so_far w out w',
  run_test_cases source_code language_id i cases results passed_so_far w
    = (Ret out, w') →
  submitted w' = submitted w ++ (request_for source_code language_id <$> cases).
Proof.
  induction cases as [|tc cases IH]; intros i results passed_so_far w out w' H.
  - simpl in H. injection H as _ <-. symmetry. apply app_nil_r.
  - simpl in H. unfold mbind, M_bind in H.
    destruct (run_test_case_cases source_code language_id i tc results passed_so_far w)
      as [(e & w1 & _ & Hr)|(token & w1 & polled & w2 & Hs & Hp)].
    + rewrite Hr in H. discriminate.
    + destruct (run_test_case_after_poll source_code language_id i tc results
                  passed_so_far w token w1 polled w2 Hs Hp) as (rec & Hr & _).
      rewrite Hr in H. apply IH in H. rewrite H.
      pose proof (poll_submitted 30 token None w1) as H2. rewrite Hp in H2.
      pose proof (submit_code_submitted (request_for source_code language_id tc) w) as H1.
      rewrite Hs in H1. simpl in H1, H2. rewrite H2, H1, <- app_assoc. reflexivity.
Qed.

End Attempts.

Section Timeouts.
Import Judge JudgeProps.

(** When every attempt finds the submission in progress, the polling
    of the test runner uses up its attempts and ends holding the last
    result it fetched, not [None]. *)
Lemma poll_in_progress n : ∀ token res w,
  in_progress_for n w →
  ∃ res' w',
    poll n token res w = (Ret res', w')
    ∧ (n = 0%nat → res' = res)
    ∧ ((0 < n)%nat → ∃ r, res' = Some r ∧ terminal r = false)
    ∧ judge0 w' = judge0 w ∧ requests w' = (requests w + n)%nat
    ∧ fetched w' = fetched w ++ repeat token n
    ∧ slept w' = (slept w + n)%nat ∧ submitted w' = submitted w.
Proof.
  induction n as [|n IH]; intros token res w H.
  - exists res, w. simpl. rewrite app_nil_r.
    repeat split; try reflexivity; try lia.
  - destruct (H 0%nat) as (text & json & r & Hj & Hd & Ht); [lia|].
    rewrite Nat.add_0_r in Hj.
    rewrite poll_S. unfold mbind at 1, M_bind at 1, try.
    rewrite (get_submission_result_200 token w text json Hj), Hd, Ht.
    unfold mbind, M_bind, sleep. simpl.
    match goal with |- context [poll n token (Some r) ?w1] => set (w1' := w1) end.
    destruct (IH token (Some r) w1') as (res' & w' & Hp & H0 & Hpos & Hj' & Hr' & Hf' & Hs' & Hsub').
    { intros k Hk. destruct (H (S k)) as (text' & json' & r' & Hj' & Hd' & Ht'); [lia|].
      exists text', json', r'. subst w1'. simpl.
      replace (S (requests w + k)) with (requests w + S k)%nat by lia.
      repeat split; assumption. }
    exists res', w'. rewrite Hp. subst w1'. simpl in *.
    repeat split; try lia; try assumption.
    + intros _. destruct n as [|n'].
      * exists r. split; [apply H0; reflexivity|exact Ht].
      * apply Hpos. lia.
    + rewrite Hf', <- app_assoc. reflexivity.
Qed.

(** The record of a test case whose thirty attempts all found it in
    progress: failed, with the error text of a failed execution. *)
Lemma stuck_test_case_record source_code language_id i test_case
    results passed_so_far w token w1 :
  submit_code (request_for source_code language_id test_case) w = (Ret token, w1) →
  in_progress_for 30 w1 →
  ∃ rec r w2,
    run_test_case source_code language_id i test_case results passed_so_far w =
      (Ret (results ++ [rec], passed_so_far), w2)
    ∧ passed rec = false
    ∧ error rec = Some (Py.or_ (stderr r)
                          (Py.or_ (compile_output r) (Py.of_string "Unknown error")))
    ∧ fetched w2 = fetched w1 ++ repeat token 30.
Proof.
  intros Hs Hin.
  destruct (poll_in_progress 30 token None w1 Hin)
    as (res' & w2 & Hp & _ & Hpos & _ & _ & Hf & _).
  destruct Hpos as (r & -> & Ht); [lia|].
  destruct (run_test_case_after_poll source_code language_id i test_case results
              passed_so_far w token w1 (Some r) w2 Hs Hp)
    as (rec & Hr & _ & _ & Hpass & _ & Herr).
  assert (Hne : status r ≠ Some 3%Z).
  { intros E. unfold terminal, status_id in Ht. rewrite E in Ht. discriminate. }
  assert (Hfalse : passed rec = false).
  { destruct (passed rec); [|reflexivity].
    destruct Hpass as [Hpass _]. destruct (Hpass eq_refl) as (r' & Hr' & Hst & _).
    injection Hr' as <-. contradiction. }
  exists rec, r, w2. rewrite Hr, Hfalse.
  repeat split; [apply (Herr r eq_refl Hne)|exact Hf].
Qed.

Lemma get_submission_result_failed token w :
  failed_reply (judge0 w (requests w)) →
  ∃ e, get_submission_result token w = (Raise e, (http_get token w).2).
Proof.
  unfold get_submission_result, failed_reply. run_monad.
  destruct (judge0 w (requests w)) as [|e|status_code text json]; intros H.
  - eexists. reflexivity.
  - eexists. reflexivity.
  - apply Z.eqb_neq in H. rewrite H. simpl. eexists. reflexivity.
Qed.

(** When every attempt fails, the polling ends with the [result] it
    started with. *)
Lemma poll_failing n : ∀ token res w,
  failing_for n w →
  ∃ w', poll n token res w = (Ret res, w')
    ∧ judge0 w' = judge0 w ∧ requests w' = (requests w + n)%nat
    ∧ fetched w' = fetched w ++ repeat token n.
Proof.
  induction n as [|n IH]; intros token res w H.
  - exists w. simpl. rewrite app_nil_r. repeat split. lia.
  - pose proof (H 0%nat ltac:(lia)) as H0. rewrite Nat.add_0_r in H0.
    destruct (get_submission_result_failed token w H0) as (e & He).
    rewrite poll_S. unfold mbind at 1, M_bind at 1, try. rewrite He.
    unfold mbind, M_bind, sleep. simpl.
    match goal with |- context [poll n token res ?w1] => set (w1' := w1) end.
    destruct (IH token res w1') as (w' & Hp & Hj & Hr & Hf).
    { intros k Hk. subst w1'. simpl.
      replace (S (requests w + k)) with (requests w + S k)%nat by lia.
      apply H. lia. }
    exists w'. rewrite Hp. subst w1'. simpl in *.
    repeat split; [exact Hj|lia|].
    rewrite Hf, <- app_assoc. reflexivity.
Qed.

(** X17: the record of a test case whose thirty attempts all failed is the
    one with the timeout marker. *)
Lemma unreachable_test_case_record source_code language_id i test_case
    results passed_so_far w token w1 :
  submit_code (request_for source_code language_id test_case) w = (Ret token, w1) →
  failing_for 30 w1 →
  ∃ rec w2,
    run_test_case source_code language_id i test_case results passed_so_far w =
      (Ret (results ++ [rec], passed_so_far), w2)
    ∧ passed rec = false ∧ error rec = timeout_marker
    ∧ fetched w2 = fetched w1 ++ repeat token 30.
Proof.
  intros Hs Hf.
  destruct (poll_failing 30 token None w1 Hf) as (w2 & Hp & _ & _ & Hfe).
  destruct (run_test_case_after_poll source_code language_id i test_case results
              passed_so_far w token w1 None w2 Hs Hp)
    as (rec & Hr & _ & _ & Hpass & Hnone & _).
  destruct (Hnone eq_refl) as [Herr _].
  assert (Hfalse : passed rec = false).
  { destruct (passed rec); [|reflexivity].
    destruct Hpass as [Hpass _]. destruct (Hpass eq_refl) as (r' & Hr' & _).
    discriminate. }
  exists rec, w2. rewrite Hr, Hfalse. repeat split; assumption.
Qed.

(** C3, at a judge that never leaves "Processing": both test cases of
    the task are submitted and polled thirty times each, and each is
    recorded as failed with the error "Unknown error", where the
    specification has "Execution timeout". *)
Theorem stuck_test_cases_recorded_as_unknown_error :
  let outcome :=
    run_code_tests (Py.of_string "task-1") (Py.of_string "print(1)")
      (Py.of_string "python") (Examples.world_of Examples.stuck_on_every_test) in
  (∃ res, outcome.1 = Ret res
     ∧ passed <$> test_results res = [false; false]
     ∧ error <$> test_results res
       = [Some (Py.of_string "Unknown error"); Some (Py.of_string "Unknown error")]
     ∧ Forall (λ rec, error rec ≠ timeout_marker) (test_results res))
  ∧ stdin <$> submitted outcome.2 = [Py.of_string "[1,2,3]"; Py.of_string "[0]"]
  ∧ fetched outcome.2 = repeat (Py.of_string "tok") 60
  ∧ slept outcome.2 = 60%nat.
Proof.
  vm_compute. split; [|repeat split].
  eexists. split; [reflexivity|]. repeat split.
  repeat constructor; discriminate.
Qed.

End Timeouts.

Section RunCode.
Import WsCoding Props.

Lemma run_poll_S n token result :
  poll (S n) token result =
    (r ← Judge.get_submission_result token;
     if Judge.terminal r then mret (Some r)
     else Judge.sleep 1;; poll n token (Some r)).
Proof. reflexivity. Qed.

(** The loop of [_handle_run_code] leaves [result] set as soon as one
    attempt was made: it never ends with [None]. *)
Lemma run_poll_some n : ∀ token res w x w',
  poll (S n) token res w = (Ret x, w') → ∃ r, x = Some r.
Proof.
  induction n as [|n IH]; intros token res w x w' H; rewrite run_poll_S in H;
    run_monad.
  - destruct (Judge.get_submission_result token w) as [[r|e] w1]; [|discriminate].
    destruct (Judge.terminal r); injection H as <- <-; exists r; reflexivity.
  - destruct (Judge.get_submission_result token w) as [[r|e] w1]; [|discriminate].
    destruct (Judge.terminal r).
    + injection H as <- <-. exists r. reflexivity.
    + exact (IH token (Some r) _ x w' H).
Qed.

Lemma sent_by_send_message sid ev st :
  ∃ evs, outbox (send_message sid ev st).2 = outbox st ++ evs
         ∧ Forall (λ p, p.2 = ev) evs.
Proof.
  unfold send_message, send_json. run_monad.
  destruct (active_connections (manager st) !! sid) as [conn|]; simpl.
  - eexists. split; [reflexivity|]. repeat constructor.
  - exists []. split; [symmetry; apply app_nil_r|constructor].
Qed.

(** X2: the branch of [_handle_run_code] that reports a timeout is never
    taken: whatever the message, the state and the judge, no
    [run_result] with the error "Execution timeout" is sent. *)
Lemma run_code_never_reports_timeout sid (message : Message) conn st :
  ∃ evs,
    outbox (_handle_run_code sid message conn st).2 = outbox st ++ evs
    ∧ Forall (λ p, p.2 ≠ RunFailed (Lit (Py.of_string "Execution timeout"))) evs.
Proof.
  assert (Hsend : ∀ ev st0 (st1 : State),
            ev ≠ RunFailed (Lit (Py.of_string "Execution timeout")) →
            outbox st1 = outbox st0 →
            ∃ evs, outbox (send_message sid ev st1).2 = outbox st0 ++ evs
                   ∧ Forall (λ p, p.2 ≠ RunFailed (Lit (Py.of_string "Execution timeout"))) evs).
  { intros ev st0 st1 Hne Ho.
    destruct (sent_by_send_message sid ev st1) as (evs & He & Hf).
    exists evs. rewrite He, Ho. split; [reflexivity|].
    eapply Forall_impl; [exact Hf|]. simpl. intros p ->. exact Hne. }
  unfold _handle_run_code.
  destruct (Py.dict_get language_map _) as [language_id|].
  2:{ apply Hsend; [|reflexivity]. intros E. injection E as E. discriminate. }
  unfold mbind at 1, M_bind at 1, try.
  unfold mbind at 1, M_bind at 1, lift_world at 1.
  destruct (Judge.submit_code _ (world st)) as [[token|e] w1]; simpl.
  2:{ apply Hsend; [discriminate|reflexivity]. }
  unfold mbind at 1, M_bind at 1, lift_world at 1. simpl.
  destruct (poll 15 token None w1) as [[x|e] w2] eqn:Hp; simpl.
  2:{ apply Hsend; [discriminate|reflexivity]. }
  apply run_poll_some in Hp as [r ->].
  match goal with
  | |- context [send_message sid ?ev ?s] =>
      destruct (Hsend ev st s) as (evs & He & Hf); [discriminate|reflexivity|]
  end.
  exists evs. split; [|exact Hf].
  destruct (send_message sid _ _) as [[[]|e] st2] eqn:Hsm; simpl in *; [exact He|].
  destruct (Hsend (RunFailed (Fmt [] e)) st st2) as (evs' & He' & Hf');
    [discriminate| |].
  - exfalso. unfold send_message, send_json in Hsm. run_monad.
    destruct (active_connections (manager st) !! sid); discriminate.
  - exfalso. unfold send_message, send_json in Hsm. run_monad.
    destruct (active_connections (manager st) !! sid); discriminate.
Qed.

(** C1, at a judge that never leaves "Processing": after the fifteen
    attempts, one second apart, the client is sent a [run_result] with
    ["success": True] and the status still in progress, where the
    specification has ["success": False] and the error "Execution timeout". *)
Theorem stuck_run_code_reported_as_success :
  let st' :=
    (handle_message 5 Examples.alice
       (Examples.message "run_code" (Some (Py.of_string "print(1)")))
       (Examples.connected Examples.stuck_judge)).2 in
  outbox st' = [(7%nat, RunResult None None None None (Some 2%Z))]
  ∧ success <$> (snd <$> outbox st') = [Some true]
  ∧ Judge.fetched (world st') = repeat (Py.of_string "tok") 15
  ∧ Judge.slept (world st') = 15%nat.
Proof. vm_compute. repeat split. Qed.

End RunCode.

(** * The properties at concrete sessions *)
Section Instances.
Import WsCoding Props Examples.

Lemma handle_message_unregistered_noop_witness :
  active_connections (manager (start stuck_judge)) !! alice = None
  ∧ handle_message 5 alice (message "tab_switch" None) (start stuck_judge)
    = (Ret tt, start stuck_judge).
Proof.
  split; [reflexivity|].
  apply (handle_message_unregistered_noop 5 alice (message "tab_switch" None)
           (EditAck 0) (start stuck_judge)).
  reflexivity.
Defined.

Lemma paste_event_recorded_and_alerted_witness :
  active_connections (manager (connected stuck_judge)) !! alice
    = Some (new_connection 0 7 (Py.of_string "task-1"))
  ∧ m_type (paste 101) = Some (Py.of_string "paste_event")
  ∧ outbox (handle_message 9 alice (paste 101) (connected stuck_judge)).2
    = [(7%nat, large_paste_alert)]
  ∧ outbox (handle_message 9 alice (paste 100) (connected stuck_judge)).2 = [].
Proof.
  assert (Hc : active_connections (manager (connected stuck_judge)) !! alice
               = Some (new_connection 0 7 (Py.of_string "task-1")))
    by (vm_compute; reflexivity).
  split; [exact Hc|]. split; [reflexivity|]. split.
  - destruct (paste_event_recorded_and_alerted 9 alice (paste 101)
                _ (connected stuck_judge) Hc eq_refl) as (_ & _ & _ & H & _).
    apply H. reflexivity.
  - destruct (paste_event_recorded_and_alerted 9 alice (paste 100)
                _ (connected stuck_judge) Hc eq_refl) as (_ & _ & _ & _ & H).
    apply H. reflexivity.
Defined.

Lemma tab_switch_alerts_from_sixth_witness :
  Forall (λ p, m_type p.2 = Some (Py.of_string "tab_switch"))
    (repeat (1%Z, message "tab_switch" None) 6)
  ∧ outbox (run (receive_all alice (repeat (1%Z, message "tab_switch" None) 6))
              (connect 0 7 alice (Py.of_string "task-1") (start stuck_judge)).2)
    = [(7%nat, tab_switch_alert 6)].
Proof.
  assert (H : Forall (λ p, m_type p.2 = Some (Py.of_string "tab_switch"))
                (repeat (1%Z, message "tab_switch" None) 6))
    by (repeat constructor).
  split; [exact H|].
  destruct (tab_switch_alerts_from_sixth 0 7 alice (Py.of_string "task-1")
              (start stuck_judge) _ H) as (_ & Hout & _).
  exact Hout.
Defined.

(** C2 fails as the specification words it: with one snapshot of empty code taken
    at time 0, an edit to code of exactly 50 characters one second later
    meets its condition (b), and an edit that keeps the code
    empty exactly 30 seconds later meets condition (c), yet neither
    appends a snapshot. *)
Lemma code_edit_at_the_thresholds_not_appended :
  code_snapshots (manager edited_once) !! alice = Some [snapshot_of 0 (message "code_edit" (Some []))]
  ∧ spec_should_snapshot [snapshot_of 0 (message "code_edit" (Some []))] fifty 1000000
  ∧ code_snapshots
      (manager (handle_message 1000000 alice (message "code_edit" (Some fifty))
                  edited_once).2) !! alice
    = Some [snapshot_of 0 (message "code_edit" (Some []))]
  ∧ spec_should_snapshot [snapshot_of 0 (message "code_edit" (Some []))] [] 30000000
  ∧ code_snapshots
      (manager (handle_message 30000000 alice (message "code_edit" (Some []))
                  edited_once).2) !! alice
    = Some [snapshot_of 0 (message "code_edit" (Some []))].
Proof.
  split; [vm_compute; reflexivity|]. split.
  { right. eexists. split; [reflexivity|]. left. vm_compute. discriminate. }
  split; [vm_compute; reflexivity|]. split.
  { right. eexists. split; [reflexivity|]. right. vm_compute. discriminate. }
  vm_compute. reflexivity.
Qed.

Lemma code_edit_snapshot_policy_witness :
  active_connections (manager edited_once) !! alice
    = Some (new_connection 0 7 (Py.of_string "task-1"))
  ∧ m_type (message "code_edit" (Some (120%N :: fifty))) = Some (Py.of_string "code_edit")
  ∧ code_snapshots (manager edited_once) !! alice
    = Some [snapshot_of 0 (message "code_edit" (Some []))]
  ∧ code_snapshots
      (manager (handle_message 1000000 alice
                  (message "code_edit" (Some (120%N :: fifty))) edited_once).2) !! alice
    = Some [snapshot_of 0 (message "code_edit" (Some []));
            snapshot_of 1000000 (message "code_edit" (Some (120%N :: fifty)))].
Proof.
  assert (Hc : active_connections (manager edited_once) !! alice
               = Some (new_connection 0 7 (Py.of_string "task-1")))
    by (vm_compute; reflexivity).
  assert (Hs : code_snapshots (manager edited_once) !! alice
               = Some [snapshot_of 0 (message "code_edit" (Some []))])
    by (vm_compute; reflexivity).
  split; [exact Hc|]. split; [reflexivity|]. split; [exact Hs|].
  destruct (code_edit_snapshot_policy 1000000 alice
              (message "code_edit" (Some (120%N :: fifty))) _ _ edited_once
              Hc eq_refl Hs) as (H & _).
  apply H. right. eexists. split; [reflexivity|]. left. vm_compute. reflexivity.
Defined.


End Instances.

Section JudgeInstances.
Import Judge JudgeProps Examples.




(** The second example of the specification: outputs "6" and " 1 " for
    expected "6" and "0" give one test passed out of two and score 50. *)
Lemma run_code_tests_second_output_wrong :
  ∃ res,
    (run_code_tests (Py.of_string "task-1") (Py.of_string "print(6)")
       (Py.of_string "Python") (world_of prompt_judge)).1 = Ret res
    ∧ passed_tests res = 1%nat ∧ total_tests res = 2%nat
    ∧ passed <$> test_results res = [true; false]
    ∧ actual <$> test_results res
      = [Some (Py.of_string "6"); Some (Py.of_string "1")]
    ∧ (score res == 50)%Q.
Proof. vm_compute. eexists. split; [reflexivity|]. repeat split. Qed.

(** A task without test cases. *)
Lemma run_code_tests_no_test_cases :
  (run_code_tests (Py.of_string "task-0") (Py.of_string "print(6)")
     (Py.of_string "python") (world_of prompt_judge)).1
  = Ret {| score := 0; passed_tests := 0; total_tests := 0; test_results := [] |}.
Proof. vm_compute. reflexivity. Qed.

End JudgeInstances.

Section Replies.
Import WsCoding Props Frames.

Lemma handle_message_registered now sid (message : Message) conn st :
  active_connections (manager st) !! sid = Some conn →
  handle_message now sid message st =
    (outcome ← try (
       if is_type (m_type message) "code_edit" then
         _handle_code_edit now sid message conn
       else if is_type (m_type message) "run_code" then
         _handle_run_code sid message conn
       else if is_type (m_type message) "submit_code" then
         _handle_submit_code sid message conn
       else if is_type (m_type message) "paste_event" then
         _handle_paste_event now sid message conn
       else if is_type (m_type message) "tab_switch" then
         _handle_tab_switch sid message conn
       else
         send_message sid
           (Error (Lit (Py.of_string "Unknown message type: "
                        ++ str_of_type (m_type message)))));
     match outcome with
     | Ret _ => mret tt
     | Raise e =>
         send_message sid (Error (Fmt (Py.of_string "Error handling message: ") e))
     end) st.
Proof.
  intros Hc. unfold handle_message.
  unfold mbind at 1, M_bind at 1, get at 1. cbv beta iota. rewrite Hc. reflexivity.
Qed.

(** A handler that returns makes [handle_message] return in the same
    state. *)
Lemma after_handler (c : M State unit) (h : Exn → M State unit) st st' :
  c st = (Ret tt, st') →
  (outcome ← try c; match outcome with Ret _ => mret tt | Raise e => h e end) st
    = (Ret tt, st').
Proof. intros H. run_monad. rewrite H. reflexivity. Qed.

Lemma with_world_registered sid conn st (w : Judge.World) ev :
  active_connections (manager st) !! sid = Some conn →
  send_message sid ev {| manager := manager st; outbox := outbox st; world := w |}
    = (Ret tt, {| manager := manager st;
                  outbox := outbox st ++ [(websocket conn, ev)]; world := w |}).
Proof. intros H. rewrite (send_message_registered sid ev conn); [reflexivity|exact H]. Qed.

Lemma handle_run_code_effect sid (message : Message) conn st :
  active_connections (manager st) !! sid = Some conn →
  ∃ ev w',
    _handle_run_code sid message conn st =
      (Ret tt, {| manager := manager st;
                  outbox := outbox st ++ [(websocket conn, ev)]; world := w' |})
    ∧ run_reply ev.
Proof.
  intros Hc. unfold _handle_run_code.
  destruct (Py.dict_get language_map _) as [language_id|].
  2:{ eexists _, (world st). rewrite (send_message_registered sid _ conn st Hc).
      split; [reflexivity|exact I]. }
  unfold mbind at 1, M_bind at 1, try.
  unfold mbind at 1, M_bind at 1, lift_world at 1.
  destruct (Judge.submit_code _ (world st)) as [[token|e] w1]; cbv beta iota.
  2:{ eexists _, w1. rewrite (with_world_registered sid conn st w1 _ Hc).
      split; [reflexivity|exact I]. }
  unfold mbind at 1, M_bind at 1, lift_world at 1. cbn [world manager outbox].
  destruct (poll 15 token None w1) as [[[r|]|e] w2]; cbv beta iota.
  - eexists _, w2. rewrite (with_world_registered sid conn st w2 _ Hc).
    split; [reflexivity|exact I].
  - eexists _, w2. rewrite (with_world_registered sid conn st w2 _ Hc).
    split; [reflexivity|exact I].
  - eexists _, w2. rewrite (with_world_registered sid conn st w2 _ Hc).
    split; [reflexivity|exact I].
Qed.

Lemma handle_submit_code_effect sid (message : Message) conn st :
  active_connections (manager st) !! sid = Some conn →
  ∃ ev w',
    _handle_submit_code sid message conn st =
      (Ret tt, {| manager := manager st;
                  outbox := outbox st ++ [(websocket conn, ev)]; world := w' |})
    ∧ submit_reply ev.
Proof.
  intros Hc. unfold _handle_submit_code.
  unfold mbind at 1, M_bind at 1, try.
  unfold mbind at 1, M_bind at 1, lift_world at 1.
  destruct (Judge.run_code_tests _ _ _ (world st)) as [[res|e] w1]; cbv beta iota.
  - eexists _, w1. rewrite (with_world_registered sid conn st w1 _ Hc).
    split; [reflexivity|exact I].
  - eexists _, w1. rewrite (with_world_registered sid conn st w1 _ Hc).
    split; [reflexivity|exact I].
Qed.

Lemma run_and_submit_effect now sid (message : Message) conn st :
  active_connections (manager st) !! sid = Some conn →
  m_type message = Some (Py.of_string "run_code")
  ∨ m_type message = Some (Py.of_string "submit_code") →
  ∃ ev w',
    handle_message now sid message st =
      (Ret tt, {| manager := manager st;
                  outbox := outbox st ++ [(websocket conn, ev)]; world := w' |}).
Proof.
  intros Hc Ht. rewrite (handle_message_registered now sid message conn st Hc).
  destruct Ht as [Ht|Ht]; rewrite Ht.
  - destruct (handle_run_code_effect sid message conn st Hc) as (ev & w' & He & _).
    exists ev, w'. apply after_handler. exact He.
  - destruct (handle_submit_code_effect sid message conn st Hc) as (ev & w' & He & _).
    exists ev, w'. apply after_handler. exact He.
Qed.


End Replies.

Section Dispatch.
Import WsCoding Props Frames.

(** X3: a [run_code] message in a language that [language_map] does not
    have is answered by a [run_result] that names the language as the
    message wrote it, and nothing is sent to the judge: the world is
    the one before. *)
Theorem run_code_unsupported_language now sid (message : Message) conn st :
  active_connections (manager st) !! sid = Some conn →
  m_type message = Some (Py.of_string "run_code") →
  Py.dict_get language_map
    (Py.lower (default (Py.of_string "python") (m_language message))) = None →
  handle_message now sid message st =
    (Ret tt,
     {| manager := manager st;
        outbox := outbox st ++
          [(websocket conn,
            RunFailed (Lit (Py.of_string "Unsupported language: "
                            ++ default (Py.of_string "python") (m_language message))))];
        world := world st |}).
Proof.
  intros Hc Ht Hl. rewrite (handle_message_registered now sid message conn st Hc).
  rewrite Ht. apply after_handler. unfold _handle_run_code. rewrite Hl.
  apply (send_message_registered sid _ conn st Hc).
Qed.

Lemma is_type_false (message_type : option str) (name : string) :
  message_type ≠ Some (Py.of_string name) → is_type message_type name = false.
Proof. intros H. unfold is_type. apply bool_decide_eq_false. exact H. Qed.

(** X4: a message whose type is none of the five, or that has no type, is
    answered by one [error] event that names the type ([None] when there
    is none), and changes nothing else. *)
Theorem unknown_type_reported now sid (message : Message) conn st :
  active_connections (manager st) !! sid = Some conn →
  Forall (λ name, m_type message ≠ Some (Py.of_string name)) known_types →
  handle_message now sid message st =
    (Ret tt,
     {| manager := manager st;
        outbox := outbox st ++
          [(websocket conn,
            Error (Lit (Py.of_string "Unknown message type: "
                        ++ default (Py.of_string "None") (m_type message))))];
        world := world st |}).
Proof.
  intros Hc Hk. rewrite (handle_message_registered now sid message conn st Hc).
  unfold known_types in Hk.
  repeat match goal with
  | H : Forall _ (_ :: _) |- _ => apply Forall_cons in H as [? H]
  end.
  rewrite !is_type_false by assumption.
  apply after_handler. apply (send_message_registered sid _ conn st Hc).
Qed.

(** What any message does on the session it is for. *)
Lemma handle_message_effect now sid (message : Message) conn st :
  active_connections (manager st) !! sid = Some conn →
  ∃ conn' snaps' evs w',
    handle_message now sid message st =
      (Ret tt,
       {| manager := {| active_connections :=
                          <[sid := conn']> (active_connections (manager st));
                        code_snapshots := snaps' |};
          outbox := outbox st ++ ((λ ev, (websocket conn, ev)) <$> evs);
          world := w' |})
    ∧ connection_moved conn conn'
    ∧ (snaps' = code_snapshots (manager st)
       ∨ ∃ l, code_snapshots (manager st) !! sid = Some l
              ∧ m_type message = Some (Py.of_string "code_edit")
              ∧ snaps' = <[sid := appended l (snapshot_of now message)]>
                           (code_snapshots (manager st)))
    ∧ (length evs ≤ 1)%nat.
Proof.
  intros Hc.
  assert (Hsame : ∀ ev w',
    handle_message now sid message st =
      (Ret tt, {| manager := manager st;
                  outbox := outbox st ++ [(websocket conn, ev)]; world := w' |}) →
    ∃ conn' snaps' evs w'',
      handle_message now sid message st =
        (Ret tt,
         {| manager := {| active_connections :=
                            <[sid := conn']> (active_connections (manager st));
                          code_snapshots := snaps' |};
            outbox := outbox st ++ ((λ ev, (websocket conn, ev)) <$> evs);
            world := w'' |})
      ∧ connection_moved conn conn'
      ∧ (snaps' = code_snapshots (manager st)
         ∨ ∃ l, code_snapshots (manager st) !! sid = Some l
                ∧ m_type message = Some (Py.of_string "code_edit")
                ∧ snaps' = <[sid := appended l (snapshot_of now message)]>
                             (code_snapshots (manager st)))
      ∧ (length evs ≤ 1)%nat).
  { intros ev w' H. exists conn, (code_snapshots (manager st)), [ev], w'.
    rewrite H, (insert_id _ _ _ Hc). destruct (manager st). simpl.
    repeat split; try (left; reflexivity). }
  destruct (is_type (m_type message) "code_edit") eqn:T1.
  { apply bool_decide_eq_true in T1.
    destruct (code_snapshots (manager st) !! sid) as [l|] eqn:Hs.
    - rewrite (code_edit_step now sid message conn l st Hc T1 Hs).
      eexists _, _, [EditAck now], _. split; [reflexivity|].
      split; [repeat split; left; reflexivity|]. split; [|simpl; lia].
      destruct (should_snapshot _ _ _);
        [right; exists l; repeat split; exact T1|left; reflexivity].
    - rewrite (handle_message_registered now sid message conn st Hc), T1.
      unfold is_type. rewrite bool_decide_eq_true_2 by reflexivity.
      unfold _handle_code_edit, set_connection, send_message, send_json.
      run_monad. rewrite Hs. simpl. rewrite lookup_insert_eq.
      eexists _, _, [_], _. split; [reflexivity|].
      split; [repeat split; left; reflexivity|].
      split; [left; reflexivity|simpl; lia]. }
  destruct (is_type (m_type message) "run_code") eqn:T2.
  { apply bool_decide_eq_true in T2.
    destruct (run_and_submit_effect now sid message conn st Hc (or_introl T2))
      as (ev & w' & H). exact (Hsame ev w' H). }
  destruct (is_type (m_type message) "submit_code") eqn:T3.
  { apply bool_decide_eq_true in T3.
    destruct (run_and_submit_effect now sid message conn st Hc (or_intror T3))
      as (ev & w' & H). exact (Hsame ev w' H). }
  destruct (is_type (m_type message) "paste_event") eqn:T4.
  { apply bool_decide_eq_true in T4.
    rewrite (paste_event_step now sid message conn st Hc T4).
    destruct (100 <? _)%Z;
      [eexists _, _, [large_paste_alert], _|eexists _, _, [], _];
      (split; [reflexivity|]);
      (split; [|split; [left; reflexivity|simpl; lia]]);
      (repeat split; [right; eexists _, _; reflexivity|left; reflexivity]). }
  destruct (is_type (m_type message) "tab_switch") eqn:T5.
  { apply bool_decide_eq_true in T5.
    rewrite (tab_switch_step now sid message conn st Hc T5).
    destruct (5 <? _)%nat;
      [eexists _, _, [tab_switch_alert _], _|eexists _, _, [], _];
      (split; [reflexivity|]);
      (split; [|split; [left; reflexivity|simpl; lia]]);
      (repeat split; [left; reflexivity|right; simpl; lia]). }
  eapply Hsame.
  rewrite (handle_message_registered now sid message conn st Hc), T1, T2, T3, T4, T5.
  apply after_handler. apply (send_message_registered sid _ conn st Hc).
Qed.

End Dispatch.

Section Isolation.
Import WsCoding Props Frames.

Lemma handle_message_none now sid (message : Message) st :
  active_connections (manager st) !! sid = None →
  handle_message now sid message st = (Ret tt, st).
Proof. intros H. unfold handle_message. run_monad. rewrite H. reflexivity. Qed.

(** X6: a message for one session leaves the connection and the snapshots
    of every other session as they are, and neither registers nor
    unregisters its own session, whose socket and task stay the same. *)
Theorem message_touches_only_its_session now sid (message : Message) st other :
  other ≠ sid →
  let st' := (handle_message now sid message st).2 in
  active_connections (manager st') !! other = active_connections (manager st) !! other
  ∧ code_snapshots (manager st') !! other = code_snapshots (manager st) !! other
  ∧ websocket <$> active_connections (manager st') !! sid
    = websocket <$> active_connections (manager st) !! sid
  ∧ task_id <$> active_connections (manager st') !! sid
    = task_id <$> active_connections (manager st) !! sid.
Proof.
  intros Hne st'. subst st'.
  destruct (active_connections (manager st) !! sid) as [conn|] eqn:Hc.
  - destruct (handle_message_effect now sid message conn st Hc)
      as (conn' & snaps' & evs & w' & -> & (Hw & Ht & _) & Hs & _).
    simpl. rewrite lookup_insert_eq, lookup_insert_ne by congruence. simpl.
    rewrite Hw, Ht. repeat split.
    destruct Hs as [->|(l & _ & _ & ->)]; [reflexivity|].
    apply lookup_insert_ne. congruence.
  - rewrite (handle_message_none now sid message st Hc). simpl.
    rewrite Hc. repeat split.
Qed.


Lemma step_close_unregisters now sid st :
  active_connections (manager (step now (Close sid) st).2) !! sid = None.
Proof. unfold step. rewrite disconnect_deletes. simpl. apply lookup_delete_eq. Qed.

Lemma receives_ignored sid (trace : list (datetime * Input)) :
  Forall (λ p, received_for sid p.2) trace →
  ∀ st, active_connections (manager st) !! sid = None → run trace st = st.
Proof.
  induction 1 as [|[now input] trace (data & Hd) _ IH]; intros st Hc; [reflexivity|].
  simpl in Hd. subst input. simpl.
  destruct data as [message|].
  - rewrite (handle_message_none now sid message st Hc). simpl. apply IH, Hc.
  - rewrite (send_message_unregistered sid _ st Hc). simpl. apply IH, Hc.
Qed.

(** X7: once the socket of a session is closed, whatever is still received
    for the session, JSON or not, is dropped: nothing is sent and
    the state does not change. *)
Theorem messages_after_close_dropped now sid st (trace : list (datetime * Input)) :
  Forall (λ p, received_for sid p.2) trace →
  run trace (step now (Close sid) st).2 = (step now (Close sid) st).2.
Proof.
  intros H. apply (receives_ignored sid trace H). apply step_close_unregisters.
Qed.

End Isolation.

Section Reachable.
Import WsCoding Props Frames.

Lemma connect_connections now ws sid tid st :
  active_connections (manager (connect now ws sid tid st).2)
  = <[sid := new_connection now ws tid]> (active_connections (manager st)).
Proof. reflexivity. Qed.




Lemma step_snapshots_unless_edit now input st sid l :
  code_snapshots (manager st) !! sid = Some l →
  ¬ edits sid input →
  code_snapshots (manager (step now input st).2) !! sid = Some l.
Proof.
  intros Hl Hne. destruct input as [ws sid' tid|sid' [message|]|sid']; unfold step.
  - rewrite connect_snapshots. case_decide as Hd; [|exact Hl].
    subst sid'. rewrite Hl. reflexivity.
  - destruct (active_connections (manager st) !! sid') as [conn|] eqn:Hc.
    + destruct (handle_message_effect now sid' message conn st Hc)
        as (conn' & snaps' & evs & w' & -> & _ & Hs & _).
      simpl. destruct Hs as [->|(l' & _ & Ht & ->)]; [exact Hl|].
      destruct (decide (sid = sid')) as [->|Hd].
      * exfalso. apply Hne. exists message. split; [reflexivity|exact Ht].
      * rewrite lookup_insert_ne by congruence. exact Hl.
    + rewrite (handle_message_none now sid' message st Hc). exact Hl.
  - rewrite keeps_send_message. exact Hl.
  - rewrite disconnect_deletes. exact Hl.
Qed.

(** X9: the snapshot list of a session is changed by nothing but the
    [code_edit] messages of that session: connecting again,
    disconnecting, the other messages of the session and all the
    traffic of the other sessions leave it as it is. *)
Theorem snapshots_changed_only_by_own_edits (trace : list (datetime * Input)) st sid l :
  code_snapshots (manager st) !! sid = Some l →
  Forall (λ p, ¬ edits sid p.2) trace →
  code_snapshots (manager (run trace st)) !! sid = Some l.
Proof.
  intros Hl H. revert st Hl.
  induction H as [|[now input] trace Hne _ IH]; intros st Hl; [exact Hl|].
  simpl. apply IH. apply step_snapshots_unless_edit; assumption.
Qed.

Lemma paste_record_bounded (pasted : str) now :
  paste_bounded {| content := take 200 pasted; paste_timestamp := now;
                   length_ := Py.len pasted |}.
Proof.
  unfold paste_bounded, Py.len. simpl. rewrite length_take. lia.
Qed.

Lemma step_pastes_bounded now input st :
  pastes_bounded st → pastes_bounded (step now input st).2.
Proof.
  intros Hinv other c. destruct input as [ws sid tid|sid [message|]|sid]; unfold step.
  - rewrite connect_connections. intros Ho.
    destruct (decide (other = sid)) as [->|Hne].
    + rewrite lookup_insert_eq in Ho. injection Ho as <-. constructor.
    + rewrite lookup_insert_ne in Ho by congruence. exact (Hinv other c Ho).
  - destruct (active_connections (manager st) !! sid) as [conn|] eqn:Hc.
    + destruct (handle_message_effect now sid message conn st Hc)
        as (conn' & snaps' & evs & w' & -> & (_ & _ & Hp & _) & _).
      simpl. intros Ho. destruct (decide (other = sid)) as [->|Hne].
      * rewrite lookup_insert_eq in Ho. injection Ho as <-.
        pose proof (Hinv sid conn Hc) as Hold.
        destruct Hp as [->|(pasted & t & ->)]; [exact Hold|].
        apply Forall_app. split; [exact Hold|].
        constructor; [apply paste_record_bounded|constructor].
      * rewrite lookup_insert_ne in Ho by congruence. exact (Hinv other c Ho).
    + rewrite (handle_message_none now sid message st Hc). apply Hinv.
  - intros Ho. apply (Hinv other c).
    unfold send_message, send_json in Ho. run_monad.
    destruct (active_connections (manager st) !! sid); exact Ho.
  - rewrite disconnect_deletes. simpl. intros Ho.
    destruct (decide (other = sid)) as [->|Hne].
    + rewrite lookup_delete_eq in Ho. discriminate.
    + rewrite lookup_delete_ne in Ho by congruence. exact (Hinv other c Ho).
Qed.

(** X10: every paste the manager ever stores holds at most 200 characters:
    in every reachable state the stored content of a paste is as long
    as the paste was, or 200 characters when the paste was longer. *)
Theorem stored_pastes_bounded (trace : list (datetime * Input)) st0 sid conn :
  manager st0 = init →
  active_connections (manager (run trace st0)) !! sid = Some conn →
  Forall (λ p, Py.len (content p) = Z.min 200 (length_ p)
               ∧ (length (content p) ≤ 200)%nat) (paste_events conn).
Proof.
  intros Hinit Hc.
  assert (Hinv : pastes_bounded (run trace st0)).
  { assert (H0 : pastes_bounded st0).
    { intros s c Hs. rewrite Hinit in Hs. simpl in Hs.
      rewrite lookup_empty in Hs. discriminate. }
    clear Hc Hinit. revert st0 H0.
    induction trace as [|[now input] trace IH]; intros st0 H0; [exact H0|].
    simpl. apply IH, step_pastes_bounded, H0. }
  eapply Forall_impl; [exact (Hinv sid conn Hc)|].
  intros p Hp. split; [exact Hp|]. unfold paste_bounded, Py.len in Hp. lia.
Qed.

End Reachable.

Section Submissions.
Import Judge JudgeProps JudgeFrames.


Lemma get_submission_result_world token w :
  (get_submission_result token w).2 = (http_get token w).2.
Proof.
  unfold get_submission_result. run_monad.
  destruct (judge0 w (requests w)) as [|msg|status_code text json]; try reflexivity.
  destruct (negb _); reflexivity.
Qed.

(** How far the polling of the test runner goes. *)
Lemma poll_progress n : ∀ token res w,
  ∃ polled w' k,
    poll n token res w = (Ret polled, w')
    ∧ (k ≤ n)%nat
    ∧ requests w' = (requests w + k)%nat
    ∧ fetched w' = fetched w ++ repeat token k
    ∧ (slept w ≤ slept w' ≤ slept w + k)%nat
    ∧ submitted w' = submitted w
    ∧ same_tables w w'
    ∧ ((k < n)%nat → ∃ r, polled = Some r ∧ terminal r = true).
Proof.
  induction n as [|n IH]; intros token res w.
  - exists res, w, 0%nat. simpl. rewrite app_nil_r.
    repeat split; try reflexivity; try lia.
  - rewrite poll_S. unfold mbind at 1, M_bind at 1, try.
    pose proof (get_submission_result_world token w) as Hw.
    destruct (get_submission_result token w) as [[r|e] w1]; simpl in Hw; subst w1.
    + destruct (terminal r) eqn:Ht.
      * exists (Some r), (http_get token w).2, 1%nat. simpl.
        repeat split; try reflexivity; try lia.
        intros _. exists r. split; [reflexivity|exact Ht].
      * unfold mbind, M_bind, sleep. simpl.
        match goal with |- context [poll n token (Some r) ?w1] =>
          destruct (IH token (Some r) w1)
            as (polled & w' & k & Hp & Hk & Hr & Hf & Hsl & Hsub & (H1 & H2 & H3) & Hterm)
        end.
        exists polled, w', (S k). rewrite Hp. simpl in *.
        repeat split; try assumption; try lia.
        -- rewrite Hf, <- app_assoc. reflexivity.
        -- intros Hlt. apply Hterm. lia.
    + unfold mbind, M_bind, sleep. simpl.
      match goal with |- context [poll n token res ?w1] =>
        destruct (IH token res w1)
          as (polled & w' & k & Hp & Hk & Hr & Hf & Hsl & Hsub & (H1 & H2 & H3) & Hterm)
      end.
      exists polled, w', (S k). rewrite Hp. simpl in *.
      repeat split; try assumption; try lia.
      * rewrite Hf, <- app_assoc. reflexivity.
      * intros Hlt. apply Hterm. lia.
Qed.

(** X16: the polling of the test runner is bounded and never raises: it
    fetches at most [max_attempts] times, always the same token, sleeps
    at most one second for each fetch, and when it stops before the
    last attempt it is because a fetch brought a terminal result. *)
Theorem test_polling_bounded n token res w :
  ∃ polled w' k,
    poll n token res w = (Ret polled, w')
    ∧ (k ≤ n)%nat
    ∧ fetched w' = fetched w ++ repeat token k
    ∧ (slept w ≤ slept w' ≤ slept w + k)%nat
    ∧ submitted w' = submitted w
    ∧ ((k < n)%nat → ∃ r, polled = Some r ∧ terminal r = true).
Proof.
  destruct (poll_progress n token res w)
    as (polled & w' & k & Hp & Hk & _ & Hf & Hsl & Hsub & _ & Hterm).
  exists polled, w', k. repeat split; try assumption; lia.
Qed.

Lemma submit_code_world request w : (submit_code request w).2 = (http_post request w).2.
Proof.
  unfold submit_code. run_monad.
  destruct (judge0 w (requests w)) as [|msg|status_code text json]; try reflexivity.
  destruct (negb _); [reflexivity|]. destruct (negb _); reflexivity.
Qed.

Lemma run_test_case_tables source_code language_id i test_case results passed_so_far w :
  same_tables w (run_test_case source_code language_id i test_case results passed_so_far w).2.
Proof.
  destruct (run_test_case_cases source_code language_id i test_case results passed_so_far w)
    as [(e & w1 & Hs & ->)|(token & w1 & polled & w2 & Hs & Hp)].
  - pose proof (submit_code_world (request_for source_code language_id test_case) w) as H.
    rewrite Hs in H. simpl in *. subst w1. repeat split.
  - destruct (run_test_case_after_poll source_code language_id i test_case results
                passed_so_far w token w1 polled w2 Hs Hp) as (rec & -> & _).
    pose proof (submit_code_world (request_for source_code language_id test_case) w) as H.
    rewrite Hs in H. simpl in H.
    destruct (poll_progress 30 token None w1)
      as (polled' & w' & k & Hp' & _ & _ & _ & _ & _ & (H1 & H2 & H3) & _).
    rewrite Hp in Hp'. injection Hp' as _ <-. simpl. rewrite H in H1, H2, H3.
    repeat split; assumption.
Qed.

Lemma run_test_cases_tables source_code language_id cases :
  ∀ i results passed_so_far w,
  same_tables w (run_test_cases source_code language_id i cases results passed_so_far w).2.
Proof.
  induction cases as [|tc cases IH]; intros i results passed_so_far w.
  - repeat split.
  - simpl. unfold mbind, M_bind.
    pose proof (run_test_case_tables source_code language_id i tc results passed_so_far w) as H.
    destruct (run_test_case source_code language_id i tc results passed_so_far w)
      as [[[results' passed']|e] w1]; simpl in H; [|exact H].
    destruct (IH (S i) results' passed' w1) as (H1 & H2 & H3).
    destruct H as (G1 & G2 & G3).
    repeat split; congruence.
Qed.

Lemma run_code_tests_missing task_id source_code language w :
  coding_tasks w !! task_id = None →
  run_code_tests task_id source_code language w
    = (Raise (HTTPException 404 (Py.of_string "Coding task not found")), w).
Proof.
  intros H. unfold run_code_tests. unfold mbind at 1, M_bind at 1, get at 1.
  cbv beta iota. rewrite H. reflexivity.
Qed.

Lemma run_code_tests_unsupported task_id source_code language w task :
  coding_tasks w !! task_id = Some task →
  Py.dict_get LANGUAGE_MAP (Py.lower language) = None →
  ∃ detail,
    run_code_tests task_id source_code language w
      = (Raise (HTTPException 400 detail), w).
Proof.
  intros H Hl. unfold run_code_tests. unfold mbind at 1, M_bind at 1, get at 1.
  cbv beta iota. rewrite H, Hl. eexists. reflexivity.
Qed.

(** X21: a row is stored exactly when the run returns: a run that returns
    has added one row to [code_submissions], which holds the task, the
    session of the task, the code, the language and the very result
    returned; a run that raises, be it for the task, the language or a
    submission that failed halfway, stores nothing, the results of the
    test cases before included.  The tasks are never written. *)
Theorem submission_stored_iff_returned task_id source_code language w :
  let outcome := run_code_tests task_id source_code language w in
  coding_tasks outcome.2 = coding_tasks w
  ∧ match outcome.1 with
    | Ret res =>
        ∃ task, coding_tasks w !! task_id = Some task
          ∧ code_submissions outcome.2 =
              code_submissions w ++
                [{| coding_task_id := task_id;
                    submission_session_id := task_session_id task;
                    code := source_code; language := language; result := res |}]
    | Raise _ => code_submissions outcome.2 = code_submissions w
    end.
Proof.
  intros outcome. subst outcome.
  destruct (coding_tasks w !! task_id) as [task|] eqn:Htask.
  2:{ rewrite (run_code_tests_missing _ _ _ _ Htask). split; reflexivity. }
  destruct (Py.dict_get LANGUAGE_MAP (Py.lower language)) as [language_id|] eqn:Hlang.
  2:{ destruct (run_code_tests_unsupported _ source_code _ _ _ Htask Hlang) as [d ->].
      split; reflexivity. }
  rewrite (run_code_tests_found _ _ _ _ _ _ Htask Hlang).
  pose proof (run_test_cases_tables source_code language_id (test_cases task) 0 [] 0 w) as H.
  destruct (run_test_cases source_code language_id 0 (test_cases task) [] 0 w)
    as [[[results passed_count]|e] w1]; simpl in *; destruct H as (H1 & H2 & H3).
  - split; [exact H2|]. exists task. split; [reflexivity|]. rewrite H1. reflexivity.
  - split; [exact H2|exact H1].
Qed.

(** X22: a run for a task that does not exist, or in a language that
    [LANGUAGE_MAP] does not have, is refused before anything happens:
    it raises an [HTTPException], 404 for the task (also when the
    language is unknown too) and 400 for the language, and the world is
    untouched, no request made and no row stored. *)
Theorem run_code_tests_refused_untouched task_id source_code language w :
  coding_tasks w !! task_id = None
  ∨ Py.dict_get LANGUAGE_MAP (Py.lower language) = None →
  ∃ status_code detail,
    run_code_tests task_id source_code language w
      = (Raise (HTTPException status_code detail), w)
    ∧ (coding_tasks w !! task_id = None → status_code = 404%Z)
    ∧ (is_Some (coding_tasks w !! task_id) → status_code = 400%Z).
Proof.
  intros H.
  destruct (coding_tasks w !! task_id) as [task|] eqn:Htask.
  - destruct H as [H|H]; [discriminate|].
    destruct (run_code_tests_unsupported _ source_code _ _ _ Htask H) as [d ->].
    eexists _, _. split; [reflexivity|]. split; [discriminate|reflexivity].
  - rewrite (run_code_tests_missing _ _ _ _ Htask).
    eexists _, _. split; [reflexivity|]. split; [reflexivity|].
    intros [? E]. discriminate.
Qed.

End Submissions.

Section RunBudget.
Import WsCoding Props Frames.

Lemma run_poll_progress n : ∀ token res w out w',
  poll n token res w = (out, w') →
  (Judge.requests w ≤ Judge.requests w' ≤ Judge.requests w + n)%nat
  ∧ (Judge.slept w ≤ Judge.slept w' ≤ Judge.slept w + n)%nat
  ∧ Judge.submitted w' = Judge.submitted w.
Proof.
  induction n as [|n IH]; intros token res w out w' H.
  - change (poll 0 token res w) with (Ret res, w) in H. injection H as _ <-.
    repeat split; try reflexivity; lia.
  - rewrite run_poll_S in H. unfold mbind at 1, M_bind at 1 in H.
    pose proof (get_submission_result_world token w) as Hw.
    destruct (Judge.get_submission_result token w) as [[r|e] w1]; simpl in Hw; subst w1.
    + destruct (Judge.terminal r).
      * injection H as _ <-. simpl. repeat split; try reflexivity; lia.
      * unfold mbind, M_bind, Judge.sleep in H. cbv beta iota in H.
        apply IH in H. simpl in H. destruct H as (H1 & H2 & H3).
        repeat split; try exact H3; lia.
    + injection H as _ <-. simpl. repeat split; try reflexivity; lia.
Qed.

Lemma world_after_send sid ev st : world (send_message sid ev st).2 = world st.
Proof.
  unfold send_message, send_json. run_monad.
  destruct (active_connections (manager st) !! sid); reflexivity.
Qed.

Lemma send_message_world sid ev st out st' :
  send_message sid ev st = (out, st') → world st' = world st.
Proof. intros H. rewrite <- (world_after_send sid ev st), H. reflexivity. Qed.

Lemma handle_run_code_budget sid (message : Message) conn st out st' :
  _handle_run_code sid message conn st = (out, st') →
  (Judge.requests (world st') ≤ Judge.requests (world st) + 16)%nat
  ∧ (Judge.slept (world st') ≤ Judge.slept (world st) + 15)%nat
  ∧ (length (Judge.submitted (world st')) ≤ length (Judge.submitted (world st)) + 1)%nat.
Proof.
  unfold _handle_run_code.
  destruct (Py.dict_get language_map _) as [language_id|].
  2:{ intros H. apply send_message_world in H. rewrite H. lia. }
  unfold mbind at 1, M_bind at 1, try.
  unfold mbind at 1, M_bind at 1, lift_world at 1.
  match goal with |- context [Judge.submit_code ?r (world st)] =>
    pose proof (submit_code_world r (world st)) as Hw;
    destruct (Judge.submit_code r (world st)) as [[token|e] w1]
  end; simpl in Hw; subst w1; cbv beta iota.
  2:{ intros H. apply send_message_world in H. rewrite H. simpl.
      rewrite length_app. simpl. lia. }
  unfold mbind at 1, M_bind at 1, lift_world at 1. cbn [world manager outbox].
  match goal with |- context [poll 15 token None ?w1] =>
    pose proof (run_poll_progress 15 token None w1) as Hp;
    destruct (poll 15 token None w1) as [res w2]
  end.
  destruct (Hp res w2 eq_refl) as (H1 & H2 & H3). simpl in H1, H2, H3.
  destruct res as [[r|]|e]; cbv beta iota.
  - destruct (send_message sid _ _) as [[[]|e] st1] eqn:Hs;
      apply send_message_world in Hs; simpl in Hs.
    + intros H. injection H as _ <-. rewrite Hs, H3, length_app. simpl. lia.
    + intros H. apply send_message_world in H. rewrite H, Hs, H3, length_app.
      simpl. lia.
  - destruct (send_message sid _ _) as [[[]|e] st1] eqn:Hs;
      apply send_message_world in Hs; simpl in Hs.
    + intros H. injection H as _ <-. rewrite Hs, H3, length_app. simpl. lia.
    + intros H. apply send_message_world in H. rewrite H, Hs, H3, length_app.
      simpl. lia.
  - intros H. apply send_message_world in H. rewrite H. simpl.
    rewrite H3, length_app. simpl. lia.
Qed.

(** X11: a [run_code] message costs the judge at most sixteen requests, one
    submission and at most fifteen fetches, and the session at most
    fifteen seconds of sleep, whatever the replies are. *)
Theorem run_code_budget now sid (message : Message) conn st :
  active_connections (manager st) !! sid = Some conn →
  m_type message = Some (Py.of_string "run_code") →
  let w := world st in
  let w' := world (handle_message now sid message st).2 in
  (Judge.requests w' ≤ Judge.requests w + 16)%nat
  ∧ (Judge.slept w' ≤ Judge.slept w + 15)%nat
  ∧ (length (Judge.submitted w') ≤ length (Judge.submitted w) + 1)%nat.
Proof.
  intros Hc Ht w w'. subst w w'.
  destruct (handle_run_code_effect sid message conn st Hc) as (ev & w1 & He & _).
  pose proof (handle_run_code_budget sid message conn st _ _ He) as Hb.
  rewrite (handle_message_registered now sid message conn st Hc), Ht.
  rewrite (after_handler _ _ st _ He). exact Hb.
Qed.

End RunBudget.

Section Languages.
Import Judge JudgeProps JudgeFrames.

(** X24: the two language tables agree where both are defined: every name
    that [language_map] of the socket handler knows is known to
    [LANGUAGE_MAP] of the test runner with the same identifier, so a
    program that can be run can also be submitted; go, rust and
    typescript are known to the test runner only. *)
Theorem run_languages_also_submit (name : str) (id : Z) :
  Py.dict_get WsCoding.language_map name = Some id →
  Py.dict_get LANGUAGE_MAP name = Some id
  ∧ Forall (λ other, Py.dict_get WsCoding.language_map (Py.of_string other) = None
                     ∧ is_Some (Py.dict_get LANGUAGE_MAP (Py.of_string other)))
      ["go"; "rust"; "typescript"]%string.
Proof.
  intros H. split.
  - unfold WsCoding.language_map, LANGUAGE_MAP in *. simpl in *.
    repeat case_bool_decide; try exact H; try discriminate.
  - repeat constructor; eexists; reflexivity.
Qed.

End Languages.

Section Scores.
Import Judge JudgeProps JudgeFrames.

Lemma filter_length_le (l : list TestResult) :
  (length (filter (λ r, passed r = true) l) ≤ length l)%nat.
Proof. apply length_filter. Qed.

(** X20: the figures of a run that returns are consistent: there is one
    record for each test case, no more test cases passed than there
    are, and the score lies between 0 and 100. *)
Theorem score_between_0_and_100 task_id source_code language w res w' :
  run_code_tests task_id source_code language w = (Ret res, w') →
  length (test_results res) = total_tests res
  ∧ (passed_tests res ≤ total_tests res)%nat
  ∧ (0 <= score res)%Q ∧ (score res <= 100)%Q.
Proof.
  intros H.
  destruct (coding_tasks w !! task_id) as [task|] eqn:Htask.
  2:{ rewrite (run_code_tests_missing _ _ _ _ Htask) in H. discriminate. }
  destruct (Py.dict_get LANGUAGE_MAP (Py.lower language)) as [language_id|] eqn:Hlang.
  2:{ destruct (run_code_tests_unsupported _ source_code _ _ _ Htask Hlang) as [d E].
      rewrite E in H. discriminate. }
  rewrite (run_code_tests_found _ _ _ _ _ _ Htask Hlang) in H.
  destruct (run_test_cases source_code language_id 0 (test_cases task) [] 0 w)
    as [[[results passed_count]|e] w1] eqn:Hrun; [|discriminate].
  apply run_test_cases_counts in Hrun as (recs & -> & Hlen & -> & _).
  injection H as <- _. simpl.
  pose proof (filter_length_le recs) as Hle.
  set (p := length (filter (λ r, passed r = true) recs)) in *.
  set (t := length (test_cases task)) in *.
  rewrite <- Hlen in *. clear Hlen.
  split; [reflexivity|]. split; [exact Hle|].
  unfold compute_score. destruct (0 <? length recs)%nat eqn:Hpos.
  - apply Nat.ltb_lt in Hpos.
    assert (Ht : (0 < inject_Z (Z.of_nat (length recs)))%Q).
    { unfold Qlt. simpl. lia. }
    split.
    + apply Qmult_le_0_compat; [|discriminate].
      apply Qle_shift_div_l; [exact Ht|]. rewrite Qmult_0_l.
      unfold Qle. simpl. lia.
    + apply Qle_trans with (1 * 100)%Q; [|unfold Qle; simpl; lia].
      apply Qmult_le_compat_r; [|discriminate].
      apply Qle_shift_div_r; [exact Ht|]. rewrite Qmult_1_l.
      unfold Qle. simpl. lia.
  - split; discriminate.
Qed.

End Scores.

Section Whitespace.
Import Judge JudgeProps JudgeFrames.







End Whitespace.

Section Base64Junk.
Import Judge JudgeProps JudgeFrames.

Lemma a2b_base64_loop_cons this_ch rest quad_pos leftchar pads bin_data :
  Base64.a2b_base64_loop (this_ch :: rest) quad_pos leftchar pads bin_data =
    if (this_ch =? Base64.BASE64_PAD)%N then
      if (2 <=? quad_pos)%nat then
        if (4 <=? quad_pos + S pads)%nat then Ret bin_data
        else Base64.a2b_base64_loop rest quad_pos leftchar (S pads) bin_data
      else Base64.a2b_base64_loop rest quad_pos leftchar pads bin_data
    else
      match Base64.table_a2b_base64 this_ch with
      | None => Base64.a2b_base64_loop rest quad_pos leftchar pads bin_data
      | Some v =>
          match quad_pos with
          | 0 => Base64.a2b_base64_loop rest 1 v 0 bin_data
          | 1 => Base64.a2b_base64_loop rest 2 (N.land v 15) 0
                   (bin_data ++ [N.lor (N.shiftl leftchar 2) (N.shiftr v 4)])
          | 2 => Base64.a2b_base64_loop rest 3 (N.land v 3) 0
                   (bin_data ++ [N.lor (N.shiftl leftchar 4) (N.shiftr v 2)])
          | _ => Base64.a2b_base64_loop rest 0 0%N 0
                   (bin_data ++ [N.lor (N.shiftl leftchar 6) v])
          end
      end.
Proof. reflexivity. Qed.

Lemma a2b_base64_loop_filter (s : bytes) : ∀ quad_pos leftchar pads bin_data,
  Base64.a2b_base64_loop (filter (λ c, base64_char c = true) s) quad_pos leftchar pads bin_data
  = Base64.a2b_base64_loop s quad_pos leftchar pads bin_data.
Proof.
  induction s as [|c s IH]; intros quad_pos leftchar pads bin_data; [reflexivity|].
  rewrite filter_cons, (a2b_base64_loop_cons c s).
  destruct (c =? Base64.BASE64_PAD)%N eqn:Hpad.
  - rewrite decide_True by (unfold base64_char; rewrite Hpad; reflexivity).
    rewrite a2b_base64_loop_cons, Hpad.
    destruct (2 <=? quad_pos)%nat; [|apply IH].
    destruct (4 <=? quad_pos + S pads)%nat; [reflexivity|apply IH].
  - destruct (Base64.table_a2b_base64 c) as [v|] eqn:Hv.
    + rewrite decide_True.
      2:{ unfold base64_char. rewrite Hpad, Hv. reflexivity. }
      rewrite a2b_base64_loop_cons, Hpad, Hv.
      destruct quad_pos as [|[|[|q]]]; apply IH.
    + rewrite decide_False.
      2:{ unfold base64_char. rewrite Hpad, Hv. cbn. discriminate. }
      apply IH.
Qed.

(** X15: [base64.b64decode], as [get_submission_result] calls it, skips
    every character that is neither a base64 digit nor the pad: an
    ASCII payload broken into lines, or with blanks in it, decodes to
    the same bytes, or fails with the same error, as the payload
    without them. *)
Theorem b64decode_skips_other_characters (s : str) :
  Forall (λ c, c < 128)%N s →
  Base64.b64decode s = Base64.b64decode (filter (λ c, base64_char c = true) s).
Proof.
  intros H. unfold Base64.b64decode, Base64.a2b_base64.
  assert (Hall : ∀ l : str, Forall (λ c, c < 128)%N l →
                            forallb (λ c, c <? 128)%N l = true).
  { intros l Hl. apply forallb_forall. intros c Hc.
    apply N.ltb_lt. rewrite Forall_forall in Hl. apply Hl.
    apply list_elem_of_In, Hc. }
  rewrite (Hall s H).
  rewrite (Hall (filter (λ c, base64_char c = true) s)).
  - symmetry. apply a2b_base64_loop_filter.
  - clear Hall. induction H as [|c l Hc _ IH]; [constructor|].
    rewrite filter_cons. destruct (decide _); [constructor; assumption|exact IH].
Qed.

End Base64Junk.

Section Budgets.
Import Judge JudgeProps JudgeFrames.

Lemma run_test_case_budget source_code language_id i test_case results passed_so_far w :
  let w' := (run_test_case source_code language_id i test_case results passed_so_far w).2 in
  (requests w ≤ requests w' ≤ requests w + 31)%nat
  ∧ (slept w ≤ slept w' ≤ slept w + 30)%nat.
Proof.
  intros w'. subst w'.
  pose proof (submit_code_world (request_for source_code language_id test_case) w) as Hw.
  destruct (run_test_case_cases source_code language_id i test_case results passed_so_far w)
    as [(e & w1 & Hs & ->)|(token & w1 & polled & w2 & Hs & Hp)].
  - rewrite Hs in Hw. simpl in *. subst w1. simpl. lia.
  - destruct (run_test_case_after_poll source_code language_id i test_case results
                passed_so_far w token w1 polled w2 Hs Hp) as (rec & -> & _).
    rewrite Hs in Hw. simpl in Hw.
    destruct (poll_progress 30 token None w1)
      as (polled' & w' & k & Hp' & Hk & Hr & _ & Hsl & _).
    rewrite Hp in Hp'. injection Hp' as _ <-. simpl.
    rewrite Hr. rewrite Hw in Hr, Hsl |- *. simpl in *. lia.
Qed.

Lemma run_test_cases_budget source_code language_id cases :
  ∀ i results passed_so_far w,
  let w' := (run_test_cases source_code language_id i cases results passed_so_far w).2 in
  (requests w ≤ requests w' ≤ requests w + 31 * length cases)%nat
  ∧ (slept w ≤ slept w' ≤ slept w + 30 * length cases)%nat.
Proof.
  induction cases as [|tc cases IH]; intros i results passed_so_far w.
  - simpl. lia.
  - simpl. unfold mbind, M_bind.
    pose proof (run_test_case_budget source_code language_id i tc results passed_so_far w) as H.
    destruct (run_test_case source_code language_id i tc results passed_so_far w)
      as [[[results' passed']|e] w1]; simpl in H.
    + pose proof (IH (S i) results' passed' w1) as H'. simpl in H'. lia.
    + simpl. lia.
Qed.

Lemma run_test_case_submitted_le source_code language_id i test_case results passed_so_far w :
  (length (submitted (run_test_case source_code language_id i test_case results
                        passed_so_far w).2) ≤ length (submitted w) + 1)%nat.
Proof.
  pose proof (submit_code_world (request_for source_code language_id test_case) w) as Hw.
  destruct (run_test_case_cases source_code language_id i test_case results passed_so_far w)
    as [(e & w1 & Hs & ->)|(token & w1 & polled & w2 & Hs & Hp)].
  - rewrite Hs in Hw. simpl in *. subst w1. simpl. rewrite length_app. simpl. lia.
  - destruct (run_test_case_after_poll source_code language_id i test_case results
                passed_so_far w token w1 polled w2 Hs Hp) as (rec & -> & _).
    rewrite Hs in Hw. simpl in Hw.
    destruct (poll_progress 30 token None w1)
      as (polled' & w' & k & Hp' & _ & _ & _ & _ & Hsub & _).
    rewrite Hp in Hp'. injection Hp' as _ <-. simpl.
    rewrite Hsub, Hw. simpl. rewrite length_app. simpl. lia.
Qed.

Lemma run_test_cases_submitted_le source_code language_id cases :
  ∀ i results passed_so_far w,
  (length (submitted (run_test_cases source_code language_id i cases results
                        passed_so_far w).2) ≤ length (submitted w) + length cases)%nat.
Proof.
  induction cases as [|tc cases IH]; intros i results passed_so_far w.
  - simpl. lia.
  - simpl. unfold mbind, M_bind.
    pose proof (run_test_case_submitted_le source_code language_id i tc results passed_so_far w) as H.
    destruct (run_test_case source_code language_id i tc results passed_so_far w)
      as [[[results' passed']|e] w1]; simpl in H.
    + pose proof (IH (S i) results' passed' w1) as H'. lia.
    + simpl. lia.
Qed.

(** X23: the time and the traffic of a run are bounded by the task: with
    [n] test cases the test runner makes at most [31 * n] requests to
    the judge, one submission and at most thirty fetches for a test
    case, and sleeps at most [30 * n] seconds, whether it returns or
    raises. *)
Theorem test_run_budget task_id source_code language w task :
  coding_tasks w !! task_id = Some task →
  let w' := (run_code_tests task_id source_code language w).2 in
  (requests w' ≤ requests w + 31 * length (test_cases task))%nat
  ∧ (slept w' ≤ slept w + 30 * length (test_cases task))%nat
  ∧ (length (submitted w') ≤ length (submitted w) + length (test_cases task))%nat.
Proof.
  intros Htask w'. subst w'.
  destruct (Py.dict_get LANGUAGE_MAP (Py.lower language)) as [language_id|] eqn:Hlang.
  2:{ destruct (run_code_tests_unsupported _ source_code _ _ _ Htask Hlang) as [d ->].
      simpl. lia. }
  rewrite (run_code_tests_found _ _ _ _ _ _ Htask Hlang).
  pose proof (run_test_cases_budget source_code language_id (test_cases task) 0 [] 0 w) as H.
  pose proof (run_test_cases_submitted_le source_code language_id (test_cases task) 0 [] 0 w) as Hs.
  destruct (run_test_cases source_code language_id 0 (test_cases task) [] 0 w)
    as [[[results passed_count]|e] w1]; simpl in *; lia.
Qed.

End Budgets.

Section RoundTrip.
Import Judge JudgeProps Encode.

Ltac div_lia := zify; Z.to_euclidean_division_equations; lia.

Lemma below_in_upto (n : nat) (b : N) :
  (b < N.of_nat n)%N → In b (N.of_nat <$> seq 0 n).
Proof.
  intros H. apply list_elem_of_In, list_elem_of_fmap.
  exists (N.to_nat b). split; [lia|]. apply list_elem_of_In, in_seq. lia.
Qed.

Lemma for_all_below (n : nat) (P : N → bool) :
  forallb P (N.of_nat <$> seq 0 n) = true → ∀ b, (b < N.of_nat n)%N → P b = true.
Proof.
  intros H b Hb. rewrite forallb_forall in H. apply H, below_in_upto, Hb.
Qed.

Lemma for_all_bytes (P : N → N → bool) :
  forallb (λ a, forallb (P a) all_bytes) all_bytes = true →
  ∀ a b, (a < 256)%N → (b < 256)%N → P a b = true.
Proof.
  intros H a b Ha Hb.
  pose proof (for_all_below 256 _ H a Ha) as H1. simpl in H1.
  exact (for_all_below 256 _ H1 b Hb).
Qed.

Lemma digit_ok_all v : (v < 64)%N → digit_ok v = true.
Proof. apply (for_all_below 64 digit_ok). vm_compute. reflexivity. Qed.

Lemma first_ok_all a b : (a < 256)%N → (b < 256)%N → first_ok a b = true.
Proof. apply (for_all_bytes first_ok). vm_compute. reflexivity. Qed.

Lemma last_ok_all b c : (b < 256)%N → (c < 256)%N → last_ok b c = true.
Proof. apply (for_all_bytes last_ok). vm_compute. reflexivity. Qed.

(** What the decoder does with the digit of a value. *)
Lemma digit_facts v :
  (v < 64)%N →
  (table_b2a_base64 v =? Base64.BASE64_PAD)%N = false
  ∧ Base64.table_a2b_base64 (table_b2a_base64 v) = Some v
  ∧ (table_b2a_base64 v < 128)%N.
Proof.
  intros H. pose proof (digit_ok_all v H) as Hd. unfold digit_ok in Hd.
  apply andb_true_iff in Hd as [Hd H3]. apply andb_true_iff in Hd as [H1 H2].
  apply negb_true_iff in H1. apply N.ltb_lt in H2.
  destruct (Base64.table_a2b_base64 (table_b2a_base64 v)) as [v'|]; [|discriminate].
  apply N.eqb_eq in H3. subst v'. repeat split; assumption.
Qed.

Lemma decode_digit v rest quad_pos leftchar pads bin_data :
  (v < 64)%N →
  Base64.a2b_base64_loop (table_b2a_base64 v :: rest) quad_pos leftchar pads bin_data =
    match quad_pos with
    | 0 => Base64.a2b_base64_loop rest 1 v 0 bin_data
    | 1 => Base64.a2b_base64_loop rest 2 (N.land v 15) 0
             (bin_data ++ [N.lor (N.shiftl leftchar 2) (N.shiftr v 4)])
    | 2 => Base64.a2b_base64_loop rest 3 (N.land v 3) 0
             (bin_data ++ [N.lor (N.shiftl leftchar 4) (N.shiftr v 2)])
    | _ => Base64.a2b_base64_loop rest 0 0%N 0
             (bin_data ++ [N.lor (N.shiftl leftchar 6) v])
    end.
Proof.
  intros H. destruct (digit_facts v H) as (H1 & H2 & _).
  rewrite a2b_base64_loop_cons, H1, H2. reflexivity.
Qed.

Ltac split_ok H :=
  repeat match type of H with
  | (_ && _)%bool = true => let H' := fresh "K" in apply andb_true_iff in H as [H H']
  end.

Lemma b64_group a b c rest leftchar pads bin_data :
  (a < 256)%N → (b < 256)%N → (c < 256)%N →
  Base64.a2b_base64_loop (b64encode (a :: b :: c :: rest)) 0 leftchar pads bin_data
  = Base64.a2b_base64_loop (b64encode rest) 0 0%N 0 (bin_data ++ [a; b; c]).
Proof.
  intros Ha Hb Hc.
  pose proof (first_ok_all a b Ha Hb) as F. pose proof (last_ok_all b c Hb Hc) as L.
  unfold first_ok in F. unfold last_ok in L. cbv zeta in F, L.
  split_ok F. split_ok L.
  repeat match goal with
  | H : (_ <? _)%N = true |- _ => apply N.ltb_lt in H
  | H : (_ =? _)%N = true |- _ => apply N.eqb_eq in H
  end.
  change (b64encode (a :: b :: c :: rest)) with
    (table_b2a_base64 (N.shiftr a 2)
     :: table_b2a_base64 (N.lor (N.shiftl (N.land a 3) 4) (N.shiftr b 4))
     :: table_b2a_base64 (N.lor (N.shiftl (N.land b 15) 2) (N.shiftr c 6))
     :: table_b2a_base64 (N.land c 63) :: b64encode rest).
  rewrite !decode_digit by assumption.
  repeat match goal with H : _ = _ |- _ => rewrite H end.
  rewrite <- !app_assoc. reflexivity.
Qed.

Lemma b64encode_ascii (data : bytes) :
  Forall (λ b, b < 256)%N data → Forall (λ c, c < 128)%N (b64encode data).
Proof.
  revert data.
  assert (Hd : ∀ v, (v < 64)%N → (table_b2a_base64 v < 128)%N)
    by (intros v Hv; apply (digit_facts v Hv)).
  fix IH 1. intros [|a [|b [|c rest]]] H.
  - constructor.
  - apply Forall_cons in H as [Ha _].
    pose proof (first_ok_all a a Ha Ha) as F. unfold first_ok in F. cbv zeta in F.
    split_ok F.
    repeat match goal with H : (_ <? _)%N = true |- _ => apply N.ltb_lt in H end.
    repeat constructor; try (apply Hd; assumption); reflexivity.
  - apply Forall_cons in H as [Ha H]. apply Forall_cons in H as [Hb _].
    pose proof (first_ok_all a b Ha Hb) as F. pose proof (last_ok_all b b Hb Hb) as L.
    unfold first_ok in F. unfold last_ok in L. cbv zeta in F, L.
    split_ok F. split_ok L.
    repeat match goal with H : (_ <? _)%N = true |- _ => apply N.ltb_lt in H end.
    repeat constructor; try (apply Hd; assumption); reflexivity.
  - apply Forall_cons in H as [Ha H]. apply Forall_cons in H as [Hb H].
    apply Forall_cons in H as [Hc H].
    pose proof (first_ok_all a b Ha Hb) as F. pose proof (last_ok_all b c Hb Hc) as L.
    unfold first_ok in F. unfold last_ok in L. cbv zeta in F, L.
    split_ok F. split_ok L.
    repeat match goal with H : (_ <? _)%N = true |- _ => apply N.ltb_lt in H end.
    change (b64encode (a :: b :: c :: rest)) with
      (table_b2a_base64 (N.shiftr a 2)
       :: table_b2a_base64 (N.lor (N.shiftl (N.land a 3) 4) (N.shiftr b 4))
       :: table_b2a_base64 (N.lor (N.shiftl (N.land b 15) 2) (N.shiftr c 6))
       :: table_b2a_base64 (N.land c 63) :: b64encode rest).
    repeat (constructor; [apply Hd; assumption|]). apply IH, H.
Qed.

Lemma b64_loop_round_trip : ∀ (data : bytes) leftchar pads bin_data,
  Forall (λ b, b < 256)%N data →
  Base64.a2b_base64_loop (b64encode data) 0 leftchar pads bin_data
  = Ret (bin_data ++ data).
Proof.
  fix IH 1. intros [|a [|b [|c rest]]] leftchar pads bin_data H.
  - simpl. rewrite app_nil_r. reflexivity.
  - apply Forall_cons in H as [Ha _].
    pose proof (first_ok_all a a Ha Ha) as F. unfold first_ok in F. cbv zeta in F.
    split_ok F.
    repeat match goal with
    | H : (_ <? _)%N = true |- _ => apply N.ltb_lt in H
    | H : (_ =? _)%N = true |- _ => apply N.eqb_eq in H
    end.
    change (b64encode [a]) with
      [table_b2a_base64 (N.shiftr a 2); table_b2a_base64 (N.shiftl (N.land a 3) 4);
       Base64.BASE64_PAD; Base64.BASE64_PAD].
    rewrite !decode_digit by assumption.
    rewrite !a2b_base64_loop_cons. simpl.
    repeat match goal with H : _ = _ |- _ => rewrite H end. reflexivity.
  - apply Forall_cons in H as [Ha H]. apply Forall_cons in H as [Hb _].
    pose proof (first_ok_all a b Ha Hb) as F. pose proof (last_ok_all b b Hb Hb) as L.
    unfold first_ok in F. unfold last_ok in L. cbv zeta in F, L.
    split_ok F. split_ok L.
    repeat match goal with
    | H : (_ <? _)%N = true |- _ => apply N.ltb_lt in H
    | H : (_ =? _)%N = true |- _ => apply N.eqb_eq in H
    end.
    change (b64encode [a; b]) with
      [table_b2a_base64 (N.shiftr a 2);
       table_b2a_base64 (N.lor (N.shiftl (N.land a 3) 4) (N.shiftr b 4));
       table_b2a_base64 (N.shiftl (N.land b 15) 2); Base64.BASE64_PAD].
    rewrite !decode_digit by assumption.
    rewrite !a2b_base64_loop_cons. simpl.
    repeat match goal with H : _ = _ |- _ => rewrite H end.
    rewrite <- !app_assoc. reflexivity.
  - apply Forall_cons in H as [Ha H]. apply Forall_cons in H as [Hb H].
    apply Forall_cons in H as [Hc H].
    rewrite (b64_group a b c rest leftchar pads bin_data Ha Hb Hc).
    rewrite (IH rest 0%N 0%nat _ H), <- app_assoc. reflexivity.
Qed.

Lemma b64_round_trip (data : bytes) :
  Forall (λ b, b < 256)%N data → Base64.b64decode (b64encode data) = Ret data.
Proof.
  intros H. unfold Base64.b64decode, Base64.a2b_base64.
  assert (Ha : forallb (λ c, c <? 128)%N (b64encode data) = true).
  { apply forallb_forall. intros c Hc. apply N.ltb_lt.
    pose proof (b64encode_ascii data H) as Hf. rewrite Forall_forall in Hf.
    apply Hf, list_elem_of_In, Hc. }
  rewrite Ha. apply (b64_loop_round_trip data 0%N 0%nat [] H).
Qed.

Lemma decode_start b rest cp lo hi :
  Utf8.decode_ignore_from 0 cp lo hi (b :: rest) =
    match Utf8.classify b with
    | Utf8.Single c => c :: Utf8.decode_ignore_from 0 0%N 128%N 191%N rest
    | Utf8.Lead n cp' lo' hi' => Utf8.decode_ignore_from n cp' lo' hi' rest
    | Utf8.InvalidStart => Utf8.decode_ignore_from 0 0%N 128%N 191%N rest
    end.
Proof. reflexivity. Qed.

(** A continuation byte that is in range is taken. *)
Lemma decode_continue k cp lo hi x rest :
  (x < 64)%N → (lo ≤ 128 + x)%N → (128 + x ≤ hi)%N →
  Utf8.decode_ignore_from (S k) cp lo hi (N.lor 128 x :: rest) =
    match k with
    | 0 => N.lor (N.shiftl cp 6) x :: Utf8.decode_ignore_from 0 0%N 128%N 191%N rest
    | S _ => Utf8.decode_ignore_from k (N.lor (N.shiftl cp 6) x) 128%N 191%N rest
    end.
Proof.
  intros Hx Hlo Hhi.
  assert (Hc : continuation_ok x = true)
    by (apply (for_all_below 64 continuation_ok); [vm_compute; reflexivity|exact Hx]).
  unfold continuation_ok in Hc. cbv zeta in Hc.
  apply andb_true_iff in Hc as [H1 H2]. apply N.eqb_eq in H1, H2.
  change (Utf8.decode_ignore_from (S k) cp lo hi (N.lor 128 x :: rest)) with
    (if ((lo <=? N.lor 128 x) && (N.lor 128 x <=? hi))%N then
       match k with
       | 0 => N.lor (N.shiftl cp 6) (N.land (N.lor 128 x) 63)
              :: Utf8.decode_ignore_from 0 0%N 128%N 191%N rest
       | S _ => Utf8.decode_ignore_from k
                  (N.lor (N.shiftl cp 6) (N.land (N.lor 128 x) 63)) 128%N 191%N rest
       end
     else
       match Utf8.classify (N.lor 128 x) with
       | Utf8.Single c => c :: Utf8.decode_ignore_from 0 0%N 128%N 191%N rest
       | Utf8.Lead n cp' lo' hi' => Utf8.decode_ignore_from n cp' lo' hi' rest
       | Utf8.InvalidStart => Utf8.decode_ignore_from 0 0%N 128%N 191%N rest
       end).
  rewrite H2, H1.
  replace (lo <=? 128 + x)%N with true by (symmetry; apply N.leb_le; exact Hlo).
  replace (128 + x <=? hi)%N with true by (symmetry; apply N.leb_le; exact Hhi).
  reflexivity.
Qed.

Lemma is_lead_classify b n cp lo hi :
  is_lead b n cp lo hi = true →
  Utf8.classify b = Utf8.Lead n cp lo hi ∧ (b < 256)%N.
Proof.
  unfold is_lead. destruct (Utf8.classify b) as [c|n' cp' lo' hi'|]; try discriminate.
  intros H. split_ok H.
  apply Nat.eqb_eq in H. apply N.ltb_lt in K.
  repeat match goal with H : (_ =? _)%N = true |- _ => apply N.eqb_eq in H end.
  subst. split; [reflexivity|assumption].
Qed.

(** Six low bits put back under the bits above them. *)
Lemma rejoin (c : N) : N.lor (N.shiftl (N.shiftr c 6) 6) (N.land c 63) = c.
Proof.
  change 63%N with (N.ones 6). rewrite <- N.ldiff_ones_r. apply N.lor_ldiff_and.
Qed.

Lemma rejoin_12 (c : N) :
  N.lor (N.shiftl (N.shiftr c 12) 6) (N.land (N.shiftr c 6) 63) = N.shiftr c 6.
Proof. change 12%N with (6 + 6)%N. rewrite <- N.shiftr_shiftr. apply rejoin. Qed.

Lemma rejoin_18 (c : N) :
  N.lor (N.shiftl (N.shiftr c 18) 6) (N.land (N.shiftr c 12) 63) = N.shiftr c 12.
Proof. change 18%N with (12 + 6)%N. rewrite <- N.shiftr_shiftr. apply rejoin. Qed.

Lemma continuation_below x : (x < 64)%N → (N.lor 128 x < 256)%N.
Proof.
  intros Hx.
  assert (Hc : continuation_ok x = true)
    by (apply (for_all_below 64 continuation_ok); [vm_compute; reflexivity|exact Hx]).
  unfold continuation_ok in Hc. cbv zeta in Hc.
  apply andb_true_iff in Hc as [H1 _]. apply N.eqb_eq in H1. lia.
Qed.

(** One character, encoded and followed by whatever, decodes to
    itself and leaves the rest to be decoded. *)
Lemma utf8_char_round_trip c first rest :
  encode_char c = Ret first →
  Utf8.decode_ignore_from 0 0%N 128%N 191%N (first ++ rest)
    = c :: Utf8.decode_ignore_from 0 0%N 128%N 191%N rest
  ∧ Forall (λ b, b < 256)%N first.
Proof.
  unfold encode_char.
  destruct (c <? 128)%N eqn:H1.
  { intros E. injection E as <-. simpl app. rewrite decode_start.
    unfold Utf8.classify. rewrite H1. apply N.ltb_lt in H1.
    split; [reflexivity|]. repeat constructor. lia. }
  apply N.ltb_ge in H1.
  pose proof (N.shiftr_div_pow2 c 6) as D6. pose proof (N.shiftr_div_pow2 c 12) as D12.
  pose proof (N.shiftr_div_pow2 c 18) as D18.
  pose proof (N.land_ones c 6) as M0.
  pose proof (N.land_ones (N.shiftr c 6) 6) as M6.
  pose proof (N.land_ones (N.shiftr c 12) 6) as M12.
  change (N.ones 6) with 63%N in *. change (2 ^ 6)%N with 64%N in *.
  change (2 ^ 12)%N with 4096%N in *. change (2 ^ 18)%N with 262144%N in *.
  destruct (c <? 2048)%N eqn:H2.
  { apply N.ltb_lt in H2. intros E. injection E as <-. simpl app.
    assert (Hh : (N.shiftr c 6 < 32)%N) by (rewrite D6; div_lia).
    assert (Hh2 : (2 ≤ N.shiftr c 6)%N) by (rewrite D6; div_lia).
    assert (Hx : (N.land c 63 < 64)%N) by (rewrite M0; div_lia).
    assert (L : lead2_ok (N.shiftr c 6) = true)
      by (apply (for_all_below 32 lead2_ok); [vm_compute; reflexivity|exact Hh]).
    unfold lead2_ok in L. apply orb_true_iff in L as [L|L];
      [apply N.ltb_lt in L; lia|].
    apply is_lead_classify in L as [L Lb].
    rewrite decode_start, L, decode_continue by (try assumption; lia).
    rewrite rejoin. split; [reflexivity|].
    repeat constructor; [exact Lb|apply continuation_below, Hx]. }
  apply N.ltb_ge in H2.
  destruct (c <? 65536)%N eqn:H3.
  { apply N.ltb_lt in H3.
    destruct ((55296 <=? c) && (c <=? 57343))%N eqn:Hs; [discriminate|].
    intros E. injection E as <-. simpl app.
    assert (Hsur : (c < 55296 ∨ 57343 < c)%N).
    { apply andb_false_iff in Hs as [Hs|Hs]; apply N.leb_gt in Hs; lia. }
    assert (Hh : (N.shiftr c 12 < 16)%N) by (rewrite D12; div_lia).
    assert (Hx1 : (N.land (N.shiftr c 6) 63 < 64)%N) by (rewrite M6; div_lia).
    assert (Hx0 : (N.land c 63 < 64)%N) by (rewrite M0; div_lia).
    assert (L : lead3_ok (N.shiftr c 12) = true)
      by (apply (for_all_below 16 lead3_ok); [vm_compute; reflexivity|exact Hh]).
    apply is_lead_classify in L as [L Lb].
    rewrite decode_start, L.
    rewrite decode_continue.
    2: exact Hx1.
    2:{ destruct (N.shiftr c 12 =? 0)%N eqn:E0; [|lia].
        apply N.eqb_eq in E0. rewrite M6, D6. rewrite D12 in E0. div_lia. }
    2:{ destruct (N.shiftr c 12 =? 13)%N eqn:E13; [|lia].
        apply N.eqb_eq in E13. rewrite M6, D6. rewrite D12 in E13. div_lia. }
    rewrite decode_continue by (try assumption; lia).
    rewrite rejoin_12, rejoin. split; [reflexivity|].
    repeat constructor; [exact Lb|apply continuation_below, Hx1
                        |apply continuation_below, Hx0]. }
  apply N.ltb_ge in H3.
  destruct (c <? 1114112)%N eqn:H4; [|discriminate].
  apply N.ltb_lt in H4. intros E. injection E as <-. simpl app.
  assert (Hh : (N.shiftr c 18 < 5)%N) by (rewrite D18; div_lia).
  assert (Hx2 : (N.land (N.shiftr c 12) 63 < 64)%N) by (rewrite M12; div_lia).
  assert (Hx1 : (N.land (N.shiftr c 6) 63 < 64)%N) by (rewrite M6; div_lia).
  assert (Hx0 : (N.land c 63 < 64)%N) by (rewrite M0; div_lia).
  assert (L : lead4_ok (N.shiftr c 18) = true)
    by (apply (for_all_below 5 lead4_ok); [vm_compute; reflexivity|exact Hh]).
  apply is_lead_classify in L as [L Lb].
  rewrite decode_start, L.
  rewrite decode_continue.
  2: exact Hx2.
  2:{ destruct (N.shiftr c 18 =? 0)%N eqn:E0; [|lia].
      apply N.eqb_eq in E0. rewrite M12, D12. rewrite D18 in E0. div_lia. }
  2:{ destruct (N.shiftr c 18 =? 4)%N eqn:E4; [|lia].
      apply N.eqb_eq in E4. rewrite M12, D12. rewrite D18 in E4. div_lia. }
  rewrite !decode_continue by (try assumption; lia).
  rewrite rejoin_18, rejoin_12, rejoin.
  split; [reflexivity|].
  repeat constructor; [exact Lb|apply continuation_below, Hx2
                      |apply continuation_below, Hx1|apply continuation_below, Hx0].
Qed.

Lemma utf8_round_trip : ∀ (s : str) raw,
  encode s = Ret raw →
  Utf8.decode_ignore raw = s ∧ Forall (λ b, b < 256)%N raw.
Proof.
  unfold Utf8.decode_ignore.
  induction s as [|c s IH]; intros raw H; simpl in H.
  - injection H as <-. split; [reflexivity|constructor].
  - destruct (encode_char c) as [first|e] eqn:Hc; [|discriminate]. simpl in H.
    destruct (encode s) as [rest|e] eqn:Hs; [|discriminate]. simpl in H.
    injection H as <-.
    destruct (utf8_char_round_trip c first rest Hc) as [H1 H2].
    destruct (IH rest eq_refl) as [H3 H4].
    rewrite H1, H3. split; [reflexivity|]. apply Forall_app. split; assumption.
Qed.

Lemma transport_round_trip (text field : str) :
  transport text = Ret field → decode_field (Some field) = Ret (Some text).
Proof.
  unfold transport. destruct (encode text) as [raw|e] eqn:He; [|discriminate].
  simpl. intros E. injection E as <-.
  destruct (utf8_round_trip text raw He) as [Hd Hb].
  unfold decode_field. destruct (b64encode raw) as [|c field] eqn:Hf.
  - simpl. destruct raw as [|a [|b [|c' raw]]]; try discriminate.
    rewrite <- Hd. reflexivity.
  - change (Py.truthy (Some (c :: field))) with true. cbv iota.
    change (default [] (Some (c :: field))) with (c :: field).
    rewrite <- Hf, (b64_round_trip raw Hb). simpl. rewrite Hd. reflexivity.
Qed.

(** X14: the two halves of the transport encoding agree: the code and the
    stdin that [submit_code] puts in [submission_data], as base64 of
    their UTF-8, are given back unchanged by the decoding that
    [get_submission_result] applies to the fields of a result, the
    empty stdin, which is sent as the empty string, included. *)
Theorem submission_fields_decode_back request data :
  submission_data request = Ret data →
  decode_field (Some (sd_source_code data)) = Ret (Some (source_code request))
  ∧ decode_field (Some (sd_stdin data)) = Ret (Some (stdin request))
  ∧ sd_language_id data = language_id request.
Proof.
  unfold submission_data.
  destruct (transport (source_code request)) as [source|e] eqn:Hs; [|discriminate].
  simpl. destruct (stdin request) as [|c input] eqn:Hi.
  - simpl. intros E. injection E as <-. simpl.
    split; [apply transport_round_trip, Hs|]. split; reflexivity.
  - destruct (transport (c :: input)) as [field|e] eqn:Ht; [|discriminate].
    simpl. intros E. injection E as <-. simpl.
    split; [apply transport_round_trip, Hs|].
    split; [apply transport_round_trip, Ht|reflexivity].
Qed.

Lemma carried_decodes field text :
  carries field text → decode_field field = Ret text.
Proof.
  destruct text as [t|]; simpl.
  - intros (f & Ht & ->). apply transport_round_trip, Ht.
  - intros ->. reflexivity.
Qed.

(** X13: what a judge encodes the way the client does, the client gets
    back: when the stdout, stderr and compile output of a 200 reply are
    base64 of the UTF-8 of three texts, [get_submission_result] returns
    these very texts, whatever characters they hold, with the status,
    time and memory of the reply. *)
Theorem fetch_returns_encoded_texts token w text json out err comp :
  judge0 w (requests w) = Response 200 text json →
  carries (j_stdout json) out →
  carries (j_stderr json) err →
  carries (j_compile_output json) comp →
  (get_submission_result token w).1 =
    Ret {| status := j_status json; stdout := out; stderr := err;
           compile_output := comp; time := j_time json; memory := j_memory json |}.
Proof.
  intros H Ho He Hc. rewrite (get_submission_result_200 token w text json H). simpl.
  unfold decode_result.
  rewrite (carried_decodes _ _ Ho), (carried_decodes _ _ He), (carried_decodes _ _ Hc).
  reflexivity.
Qed.

End RoundTrip.

(** * The further properties at concrete sessions *)
Section MoreInstances.
Import WsCoding Props Frames Examples Cases.

Lemma her_connection_registered :
  active_connections (manager (connected stuck_judge)) !! alice = Some her_connection.
Proof. vm_compute. reflexivity. Qed.


Lemma run_code_unsupported_language_witness :
  active_connections (manager (connected stuck_judge)) !! alice = Some her_connection
  ∧ m_type (run_in "COBOL") = Some (Py.of_string "run_code")
  ∧ Py.dict_get language_map
      (Py.lower (default (Py.of_string "python") (m_language (run_in "COBOL")))) = None
  ∧ (handle_message 5 alice (run_in "COBOL") (connected stuck_judge)).2 =
      {| manager := manager (connected stuck_judge);
         outbox := [(7%nat, RunFailed (Lit (Py.of_string "Unsupported language: COBOL")))];
         world := world (connected stuck_judge) |}.
Proof.
  split; [exact her_connection_registered|]. split; [reflexivity|].
  split; [vm_compute; reflexivity|].
  rewrite (run_code_unsupported_language 5 alice (run_in "COBOL") her_connection
             (connected stuck_judge) her_connection_registered eq_refl);
    [reflexivity|vm_compute; reflexivity].
Defined.

Lemma unknown_type_reported_witness :
  active_connections (manager (connected stuck_judge)) !! alice = Some her_connection
  ∧ Forall (λ name, m_type (message "ping" None) ≠ Some (Py.of_string name)) known_types
  ∧ outbox (handle_message 5 alice (message "ping" None) (connected stuck_judge)).2 =
      [(7%nat, Error (Lit (Py.of_string "Unknown message type: ping")))].
Proof.
  assert (H : Forall (λ name, m_type (message "ping" None) ≠ Some (Py.of_string name))
                known_types) by (repeat constructor; discriminate).
  split; [exact her_connection_registered|]. split; [exact H|].
  rewrite (unknown_type_reported 5 alice (message "ping" None) her_connection
             (connected stuck_judge) her_connection_registered H).
  reflexivity.
Defined.

Lemma message_touches_only_its_session_witness :
  bob ≠ alice
  ∧ active_connections
      (manager (handle_message 5 alice (paste 250) two_sessions).2) !! bob
    = active_connections (manager two_sessions) !! bob
  ∧ is_Some (active_connections (manager two_sessions) !! bob).
Proof.
  assert (H : bob ≠ alice) by discriminate.
  split; [exact H|].
  destruct (message_touches_only_its_session 5 alice (paste 250) two_sessions bob H)
    as (H1 & _).
  split; [exact H1|]. vm_compute. eexists; reflexivity.
Defined.


Lemma messages_after_close_dropped_witness :
  Forall (λ p, received_for alice p.2)
    [(6%Z, Receive alice (Some (paste 250))); (7%Z, Receive alice None)]
  ∧ run [(6%Z, Receive alice (Some (paste 250))); (7%Z, Receive alice None)]
      (step 5 (Close alice) (connected stuck_judge)).2
    = (step 5 (Close alice) (connected stuck_judge)).2.
Proof.
  assert (H : Forall (λ p, received_for alice p.2)
                [(6%Z, Receive alice (Some (paste 250))); (7%Z, Receive alice None)])
    by (repeat constructor; eexists; reflexivity).
  split; [exact H|].
  apply (messages_after_close_dropped 5 alice (connected stuck_judge) _ H).
Defined.


Lemma snapshots_changed_only_by_own_edits_witness :
  code_snapshots (manager edited_once) !! alice
    = Some [snapshot_of 0 (message "code_edit" (Some []))]
  ∧ Forall (λ p, ¬ edits alice p.2)
      [(3%Z, Close alice); (4%Z, Open 9 alice (Py.of_string "task-0"));
       (5%Z, Receive alice (Some (paste 250)))]
  ∧ code_snapshots
      (manager (run [(3%Z, Close alice); (4%Z, Open 9 alice (Py.of_string "task-0"));
                     (5%Z, Receive alice (Some (paste 250)))] edited_once)) !! alice
    = Some [snapshot_of 0 (message "code_edit" (Some []))].
Proof.
  assert (Hs : code_snapshots (manager edited_once) !! alice
    = Some [snapshot_of 0 (message "code_edit" (Some []))]) by (vm_compute; reflexivity).
  assert (Hf : Forall (λ p, ¬ edits alice p.2)
      [(3%Z, Close alice); (4%Z, Open 9 alice (Py.of_string "task-0"));
       (5%Z, Receive alice (Some (paste 250)))]).
  { repeat constructor; intros (m & E & Ht); try discriminate.
    injection E as <-. discriminate. }
  split; [exact Hs|]. split; [exact Hf|].
  apply (snapshots_changed_only_by_own_edits _ edited_once alice _ Hs Hf).
Defined.

Lemma stored_pastes_bounded_witness :
  manager (start stuck_judge) = init
  ∧ active_connections (manager (run busy_trace (start stuck_judge))) !! alice
    = Some {| websocket := 7; task_id := Py.of_string "task-1"; last_code := fifty;
              last_activity := 2;
              paste_events := [{| content := repeat 120%N 200; paste_timestamp := 1;
                                  length_ := 250 |}];
              tab_switches := 0 |}
  ∧ Forall (λ p, Py.len (content p) = Z.min 200 (length_ p)
                 ∧ (length (content p) ≤ 200)%nat)
      [{| content := repeat 120%N 200; paste_timestamp := 1; length_ := 250 |}].
Proof.
  assert (Hc : active_connections (manager (run busy_trace (start stuck_judge))) !! alice
    = Some {| websocket := 7; task_id := Py.of_string "task-1"; last_code := fifty;
              last_activity := 2;
              paste_events := [{| content := repeat 120%N 200; paste_timestamp := 1;
                                  length_ := 250 |}];
              tab_switches := 0 |}) by (vm_compute; reflexivity).
  split; [reflexivity|]. split; [exact Hc|].
  apply (stored_pastes_bounded busy_trace (start stuck_judge) alice _ eq_refl Hc).
Defined.

Lemma run_code_budget_witness :
  active_connections (manager (connected stuck_judge)) !! alice = Some her_connection
  ∧ m_type (run_in "python") = Some (Py.of_string "run_code")
  ∧ (Judge.requests (world (handle_message 5 alice (run_in "python")
                              (connected stuck_judge)).2)
     ≤ Judge.requests (world (connected stuck_judge)) + 16)%nat.
Proof.
  split; [exact her_connection_registered|]. split; [reflexivity|].
  destruct (run_code_budget 5 alice (run_in "python") her_connection
              (connected stuck_judge) her_connection_registered eq_refl) as (H & _).
  exact H.
Defined.

End MoreInstances.

Section MoreJudgeInstances.
Import Judge JudgeProps JudgeFrames Encode Examples Cases.

Lemma run_code_tests_refused_untouched_witness :
  (coding_tasks (world_of prompt_judge) !! Py.of_string "task-9" = None
   ∨ Py.dict_get LANGUAGE_MAP (Py.lower (Py.of_string "python")) = None)
  ∧ ∃ detail,
      run_code_tests (Py.of_string "task-9") (Py.of_string "print(6)")
        (Py.of_string "python") (world_of prompt_judge)
      = (Raise (HTTPException 404 detail), world_of prompt_judge).
Proof.
  assert (H : coding_tasks (world_of prompt_judge) !! Py.of_string "task-9" = None)
    by (vm_compute; reflexivity).
  split; [left; exact H|].
  destruct (run_code_tests_refused_untouched (Py.of_string "task-9")
              (Py.of_string "print(6)") (Py.of_string "python")
              (world_of prompt_judge) (or_introl H)) as (c & d & E & Hc & _).
  exists d. rewrite E, (Hc H). reflexivity.
Defined.

Lemma run_languages_also_submit_witness :
  Py.dict_get WsCoding.language_map (Py.of_string "cpp") = Some 54%Z
  ∧ Py.dict_get LANGUAGE_MAP (Py.of_string "cpp") = Some 54%Z.
Proof.
  split; [reflexivity|].
  apply (run_languages_also_submit (Py.of_string "cpp") 54 eq_refl).
Defined.

Lemma score_between_0_and_100_witness :
  ∃ res w',
    run_code_tests (Py.of_string "task-1") (Py.of_string "print(6)")
      (Py.of_string "Python") (world_of prompt_judge) = (Ret res, w')
    ∧ (passed_tests res ≤ total_tests res)%nat
    ∧ (0 <= score res)%Q ∧ (score res <= 100)%Q.
Proof.
  destruct (run_code_tests (Py.of_string "task-1") (Py.of_string "print(6)")
              (Py.of_string "Python") (world_of prompt_judge)) as [[res|e] w'] eqn:E;
    [|vm_compute in E; discriminate].
  exists res, w'. split; [reflexivity|].
  destruct (score_between_0_and_100 _ _ _ _ res w' E) as (_ & H1 & H2 & H3).
  repeat split; assumption.
Defined.


Lemma b64decode_skips_other_characters_witness :
  Forall (λ c, c < 128)%N (Py.of_string "aGVs" ++ [10%N] ++ Py.of_string "bG8=" ++ [10%N])
  ∧ Base64.b64decode (Py.of_string "aGVs" ++ [10%N] ++ Py.of_string "bG8=" ++ [10%N])
    = Base64.b64decode (Py.of_string "aGVsbG8=").
Proof.
  assert (H : Forall (λ c, c < 128)%N
                (Py.of_string "aGVs" ++ [10%N] ++ Py.of_string "bG8=" ++ [10%N]))
    by (repeat constructor).
  split; [exact H|].
  rewrite (b64decode_skips_other_characters _ H). reflexivity.
Defined.

Lemma submission_fields_decode_back_witness :
  ∃ data,
    submission_data accented_request = Ret data
    ∧ sd_source_code data = Py.of_string "cHJpbnQoIsOp4oKs8J+YgCIp"
    ∧ decode_field (Some (sd_source_code data)) = Ret (Some (source_code accented_request))
    ∧ decode_field (Some (sd_stdin data)) = Ret (Some []).
Proof.
  destruct (submission_data accented_request) as [data|e] eqn:E;
    [|vm_compute in E; discriminate].
  exists data. split; [reflexivity|].
  destruct (submission_fields_decode_back accented_request data E) as (H1 & H2 & _).
  split; [|split; [exact H1|exact H2]].
  vm_compute in E. injection E as <-. reflexivity.
Defined.

Lemma fetch_returns_encoded_texts_witness :
  judge0 answered_world (requests answered_world) = fetched 3 (Some "Ng==")
  ∧ carries (Some (Py.of_string "Ng==")) (Some (Py.of_string "6"))
  ∧ (get_submission_result (Py.of_string "tok") answered_world).1
    = Ret {| status := Some 3%Z; stdout := Some (Py.of_string "6");
             stderr := None; compile_output := None; time := None;
             memory := None |}.
Proof.
  assert (H : judge0 answered_world (requests answered_world) = fetched 3 (Some "Ng=="))
    by (vm_compute; reflexivity).
  assert (Hc : carries (Some (Py.of_string "Ng==")) (Some (Py.of_string "6")))
    by (eexists; split; reflexivity).
  split; [exact H|]. split; [exact Hc|].
  apply (fetch_returns_encoded_texts (Py.of_string "tok") answered_world _ _
           (Some (Py.of_string "6")) None None H Hc eq_refl eq_refl).
Defined.

Lemma test_run_budget_witness :
  coding_tasks (world_of stuck_on_every_test) !! Py.of_string "task-1" = Some sum_task
  ∧ (requests (run_code_tests (Py.of_string "task-1") (Py.of_string "print(1)")
                 (Py.of_string "python") (world_of stuck_on_every_test)).2
     ≤ 0 + 31 * 2)%nat.
Proof.
  assert (H : coding_tasks (world_of stuck_on_every_test) !! Py.of_string "task-1"
              = Some sum_task) by (vm_compute; reflexivity).
  split; [exact H|].
  destruct (test_run_budget (Py.of_string "task-1") (Py.of_string "print(1)")
              (Py.of_string "python") (world_of stuck_on_every_test) sum_task H)
    as (H1 & _).
  exact H1.
Defined.

Lemma run_test_cases_attempts_all_witness :
  ∃ out w',
    run_test_cases (Py.of_string "print(1)") 71 0 (test_cases sum_task) [] 0
      (world_of stuck_on_every_test) = (Ret out, w')
    ∧ stdin <$> submitted w' = [Py.of_string "[1,2,3]"; Py.of_string "[0]"].
Proof.
  destruct (run_test_cases (Py.of_string "print(1)") 71 0 (test_cases sum_task) [] 0
              (world_of stuck_on_every_test)) as [[out|e] w'] eqn:E;
    [|vm_compute in E; discriminate].
  exists out, w'. split; [reflexivity|].
  rewrite (run_test_cases_attempts_all _ _ _ _ _ _ _ _ _ E). reflexivity.
Defined.

Lemma unreachable_test_case_record_witness :
  let tc := {| tc_input := Some (Py.of_string "[0]");
               tc_expected_output := Some (Py.of_string "0") |} in
  let w := world_of unreachable_judge in
  let w1 := (submit_code (request_for (Py.of_string "print(1)") 71 tc) w).2 in
  submit_code (request_for (Py.of_string "print(1)") 71 tc) w = (Ret (Py.of_string "tok"), w1)
  ∧ failing_for 30 w1
  ∧ ∃ rec w2,
      run_test_case (Py.of_string "print(1)") 71 0 tc [] 0 w = (Ret ([rec], 0%nat), w2)
      ∧ error rec = timeout_marker.
Proof.
  intros tc w w1.
  assert (Hs : submit_code (request_for (Py.of_string "print(1)") 71 tc) w
               = (Ret (Py.of_string "tok"), w1)) by reflexivity.
  assert (Hf : failing_for 30 w1).
  { intros k Hk. do 30 (destruct k as [|k]; [exact I|]). lia. }
  split; [exact Hs|]. split; [exact Hf|].
  destruct (unreachable_test_case_record (Py.of_string "print(1)") 71 0 tc [] 0 w
              (Py.of_string "tok") w1 Hs Hf) as (rec & w2 & H & _ & He & _).
  exists rec, w2. split; [exact H|exact He].
Defined.

End MoreJudgeInstances.
